(** * Zoom, fit-to-viewport, canvas rendering and the event registry
      of the graph visualization (neo4j-arc, GraphVisualizer)

    Shallow embedding of
    - [Graph.tsx]  (React component [Graph]: zoom level, canvas drawing,
      wheel-zoom info message),
    - the [Visualization] class in its canvas version (scale, render,
      zoom to fit, [on]/[trigger]),
    - the wheel filter of the d3-zoom version of [Visualization].

    JavaScript numbers are modelled as exact rationals ([Q]); rounding of
    binary64 arithmetic is not modelled.  A division is checked: a zero
    divisor, which in JavaScript yields NaN or an infinity, gives [None]. *)

From Stdlib Require Import QArith Qminmax Lqa Lia.
From stdpp Require Import gmap strings list.

Open Scope Q_scope.

(** ** JavaScript layer *)

Module Js.

(** [a / b] on numbers.  [None] stands for a non-finite result. *)
Definition div (a b : Q) : option Q :=
  if Qeq_bool b 0 then None else Some (a / b).

(** [a > b] on numbers. *)
Definition gtb (a b : Q) : bool :=
  if Qlt_le_dec b a then true else false.

(** [a === b] on numbers. *)
Definition eqb (a b : Q) : bool := Qeq_bool a b.

(** An unsigned long attribute (canvas width and height) read as a
    number. *)
Definition ofN (n : N) : Q := inject_Z (Z.of_N n).

(** Truthiness of an optional boolean ([flag?: boolean]). *)
Definition truthy (b : option bool) : bool := default false b.

(** Property names every object literal inherits from
    [Object.prototype]. *)
Definition objectPrototypeKeys : list string :=
  [ "constructor"; "__defineGetter__"; "__defineSetter__";
    "hasOwnProperty"; "__lookupGetter__"; "__lookupSetter__";
    "isPrototypeOf"; "propertyIsEnumerable"; "toString"; "valueOf";
    "__proto__"; "toLocaleString" ]%string.

Definition inherited (k : string) : bool :=
  bool_decide (k ∈ objectPrototypeKeys).

(** Result of [o[k]] on an object literal used as a map: an own
    property, a member inherited from [Object.prototype] (a function,
    or the prototype object itself for [__proto__]; never nullish, and
    without [push] or [forEach]), or [undefined]. *)
Inductive Property (V : Type) : Type :=
| Own (v : V)
| Inherited
| Undefined.
Arguments Own {V} v.
Arguments Inherited {V}.
Arguments Undefined {V}.

Definition get {V} (o : gmap string V) (k : string) : Property V :=
  match o !! k with
  | Some v => Own v
  | None => if inherited k then Inherited else Undefined
  end.

(** Outcome of a call: normal completion or a thrown [TypeError]. *)
Inductive Completion (A : Type) : Type :=
| Normal (a : A)
| TypeError.
Arguments Normal {A} a.
Arguments TypeError {A}.

(** Console output. *)
Inductive Console : Type :=
| ConsoleError (msg : string)
| ConsoleLog (msg : string)
| ConsoleLogNumber (q : Q).

End Js.

(** ** The 2D drawing context *)

Module Canvas2D.

(** Current transformation matrix.  The code only translates and
    scales, so the matrix is diagonal plus an offset: a point [(x, y)]
    of the user space is painted at [(sx * x + tx, sy * y + ty)]. *)
Record Transform : Type := mkTransform
  { sx : Q; sy : Q; tx : Q; ty : Q }.

Definition identity : Transform :=
  {| sx := 1; sy := 1; tx := 0; ty := 0 |}.

Definition apply (t : Transform) (p : Q * Q) : Q * Q :=
  (sx t * fst p + tx t, sy t * snd p + ty t).

(** Text handed to [fillText]: a string, [undefined], or a member
    inherited from [Object.prototype]. *)
Inductive Caption : Type :=
| CaptionText (s : string)
| CaptionUndefined
| CaptionInherited (key : string).

(** A full circle of the current path, in device coordinates. *)
Record Circle : Type := mkCircle
  { centre : Q * Q; radiusX : Q; radiusY : Q }.

(** What has been painted on the surface, oldest first. *)
Inductive Paint : Type :=
| Cleared (corner : Q * Q) (w h : Q)
| Filled (style : string) (shape : list Circle)
| Stroked (shape : list Circle)
| Text (style font align baseline : string) (caption : Caption)
       (anchor : Q * Q) (maxWidth : Q).

Record Context : Type := mkContext
  { transform : Transform;
    fillStyle : string;
    font : string;
    textAlign : string;
    textBaseline : string;
    path : list Circle;
    painted : list Paint }.

Definition setTransform (t : Transform) (c : Context) : Context :=
  {| transform := t; fillStyle := fillStyle c; font := font c;
     textAlign := textAlign c; textBaseline := textBaseline c;
     path := path c; painted := painted c |}.

Definition setPath (p : list Circle) (c : Context) : Context :=
  {| transform := transform c; fillStyle := fillStyle c; font := font c;
     textAlign := textAlign c; textBaseline := textBaseline c;
     path := p; painted := painted c |}.

Definition paint (p : Paint) (c : Context) : Context :=
  {| transform := transform c; fillStyle := fillStyle c; font := font c;
     textAlign := textAlign c; textBaseline := textBaseline c;
     path := path c; painted := painted c ++ [p] |}.

Definition setFillStyle (s : string) (c : Context) : Context :=
  {| transform := transform c; fillStyle := s; font := font c;
     textAlign := textAlign c; textBaseline := textBaseline c;
     path := path c; painted := painted c |}.

Definition setFont (s : string) (c : Context) : Context :=
  {| transform := transform c; fillStyle := fillStyle c; font := s;
     textAlign := textAlign c; textBaseline := textBaseline c;
     path := path c; painted := painted c |}.

Definition setTextAlign (s : string) (c : Context) : Context :=
  {| transform := transform c; fillStyle := fillStyle c; font := font c;
     textAlign := s; textBaseline := textBaseline c;
     path := path c; painted := painted c |}.

Definition setTextBaseline (s : string) (c : Context) : Context :=
  {| transform := transform c; fillStyle := fillStyle c; font := font c;
     textAlign := textAlign c; textBaseline := s;
     path := path c; painted := painted c |}.

Definition resetTransform (c : Context) : Context :=
  setTransform identity c.

(** [ctx.translate(dx, dy)]: the matrix is multiplied on the right. *)
Definition translate (dx dy : Q) (c : Context) : Context :=
  let t := transform c in
  setTransform {| sx := sx t; sy := sy t;
                  tx := tx t + sx t * dx; ty := ty t + sy t * dy |} c.

(** [ctx.scale(kx, ky)]. *)
Definition scale (kx ky : Q) (c : Context) : Context :=
  let t := transform c in
  setTransform {| sx := sx t * kx; sy := sy t * ky;
                  tx := tx t; ty := ty t |} c.

Definition clearRect (x y w h : Q) (c : Context) : Context :=
  let t := transform c in
  paint (Cleared (apply t (x, y)) (sx t * w) (sy t * h)) c.

Definition beginPath (c : Context) : Context := setPath [] c.

(** [ctx.arc(x, y, r, 0, Math.PI * 2)]: a full circle. *)
Definition arc (x y r : Q) (c : Context) : Context :=
  let t := transform c in
  setPath (path c ++ [ {| centre := apply t (x, y);
                          radiusX := sx t * r;
                          radiusY := sy t * r |} ]) c.

Definition fill (c : Context) : Context :=
  paint (Filled (fillStyle c) (path c)) c.

Definition stroke (c : Context) : Context :=
  paint (Stroked (path c)) c.

Definition fillText (s : Caption) (x y maxWidth : Q) (c : Context)
  : Context :=
  let t := transform c in
  paint (Text (fillStyle c) (font c) (textAlign c) (textBaseline c)
              s (apply t (x, y)) (sx t * maxWidth)) c.

(** [ctx.restore()]: no [save()] is ever called, so the state stack is
    empty and the call changes nothing. *)
Definition restore (c : Context) : Context := c.

(** An [HTMLCanvasElement]: its size and what [getContext('2d')]
    returns ([None] for [null]). *)
Record Element : Type := mkElement
  { width : N; height : N; context2d : option Context }.

Definition setContext (c : Context) (e : Element) : Element :=
  {| width := width e; height := height e; context2d := Some c |}.

(** The circle, outline and caption that both [drawNode] methods
    paint. *)
Definition drawDisc (label : Caption) (x y radius : Q) (c : Context)
  : Context :=
  let c := beginPath c in
  let c := arc x y radius c in
  let c := setFillStyle "blue" c in
  let c := fill c in
  let c := stroke c in
  let c := setFillStyle "white" c in
  let c := setFont "20px Arial" c in
  let c := setTextAlign "center" c in
  let c := setTextBaseline "middle" c in
  fillText label x y radius c.

(** *** Descriptions used in the statements *)

(** The three paints of one node disc under the transform [t]. *)
Definition discPaints (t : Transform) (label : Caption)
  (x y r : Q) : list Paint :=
  let circle := {| centre := apply t (x, y);
                   radiusX := sx t * r;
                   radiusY := sy t * r |} in
  [ Filled "blue" [circle];
    Stroked [circle];
    Text "white" "20px Arial" "center" "middle" label
                  (apply t (x, y)) (sx t * r) ].

(** The transform in effect after [resetTransform], [translate(dx, dy)]
    and [scale(k, k)]. *)
Definition viewTransform (dx dy k : Q) : Transform :=
  {| sx := 1 * k; sy := 1 * k;
     tx := 0 + 1 * dx; ty := 0 + 1 * dy |}.

End Canvas2D.

(** ** Shared types *)

Inductive ZoomType : Type := IN | OUT | FIT.

(** Modelled from the spec: [BasicNode] is declared outside the given
    sources; a node has an identity, labels and a property map. *)
Record BasicNode : Type := mkBasicNode
  { basicId : string;
    labels : list string;
    properties : gmap string string }.


(** ** The React component [Graph] (Graph.tsx) *)

Module Graph.

(** The props the modelled methods read. *)
Record GraphProps : Type := mkGraphProps
  { nodes : list BasicNode;
    wheelZoomRequiresModKey : option bool;
    wheelZoomInfoMessageEnabled : option bool }.

Record GraphState : Type := mkGraphState
  { zoomInLimitReached : bool;
    zoomOutLimitReached : bool;
    displayingWheelZoomInfoMessage : bool;
    zoomLevel : Q }.

(** The component: props, state and [canvasElement.current] ([None] for
    [null]). *)
Record Component : Type := mkComponent
  { props : GraphProps;
    state : GraphState;
    canvasElement : option Canvas2D.Element }.

(** State set by the constructor. *)
Definition initialState : GraphState :=
  {| zoomInLimitReached := false;
     zoomOutLimitReached := false;
     displayingWheelZoomInfoMessage := false;
     zoomLevel := 1 |}.

Definition setState (s : GraphState) (g : Component) : Component :=
  {| props := props g; state := s; canvasElement := canvasElement g |}.

Definition setZoomLevel (z : Q) (s : GraphState) : GraphState :=
  {| zoomInLimitReached := zoomInLimitReached s;
     zoomOutLimitReached := zoomOutLimitReached s;
     displayingWheelZoomInfoMessage := displayingWheelZoomInfoMessage s;
     zoomLevel := z |}.

Definition displayZoomWheelInfoMessage (display : bool) (g : Component)
  : Component :=
  let s := state g in
  setState {| zoomInLimitReached := zoomInLimitReached s;
              zoomOutLimitReached := zoomOutLimitReached s;
              displayingWheelZoomInfoMessage := display;
              zoomLevel := zoomLevel s |} g.

Definition handleDisplayZoomWheelInfoMessage (g : Component) : Component :=
  if negb (displayingWheelZoomInfoMessage (state g))
     && Js.truthy (wheelZoomRequiresModKey (props g))
     && Js.truthy (wheelZoomInfoMessageEnabled (props g))
  then displayZoomWheelInfoMessage true g
  else g.

(** Whether [render] mounts the [WheelZoomInfoOverlay]. *)
Definition overlayShown (g : Component) : bool :=
  Js.truthy (wheelZoomInfoMessageEnabled (props g))
  && displayingWheelZoomInfoMessage (state g).

Definition zoomByType (zoomType : ZoomType) (g : Component) : Component :=
  match zoomType with
  | IN => setState (setZoomLevel (zoomLevel (state g) + (3 # 10)) (state g)) g
  | OUT => setState (setZoomLevel (zoomLevel (state g) - (3 # 10)) (state g)) g
  | FIT => setState (setZoomLevel 1 (state g)) g
  end.

(** A series of zoom button clicks. *)
Definition zoomSequence (ops : list ZoomType) (g : Component) : Component :=
  fold_left (fun g op => zoomByType op g) ops g.

(** [label ? node.properties[label] : 'NULL'] with
    [label = node.labels[0]]; the empty string is falsy. *)
Definition caption (node : BasicNode) : Canvas2D.Caption :=
  match labels node with
  | [] => Canvas2D.CaptionText "NULL"
  | label :: _ =>
      if String.eqb label "" then Canvas2D.CaptionText "NULL"
      else match Js.get (properties node) label with
           | Js.Own s => Canvas2D.CaptionText s
           | Js.Inherited => Canvas2D.CaptionInherited label
           | Js.Undefined => Canvas2D.CaptionUndefined
           end
  end.

Definition drawNode (ctx : Canvas2D.Context) (label : Canvas2D.Caption)
  (x y radius : Q) : Canvas2D.Context :=
  Canvas2D.drawDisc label x y radius ctx.

(** The [for] loop of [updateGraphCanvas] over [nodes.entries()],
    starting at index [idx]. *)
Fixpoint drawNodes (ctx : Canvas2D.Context) (idx : N) (ns : list BasicNode)
  : Canvas2D.Context :=
  match ns with
  | [] => ctx
  | node :: rest =>
      drawNodes (drawNode ctx (caption node) (Js.ofN idx * 100) 100 50)
                (N.succ idx) rest
  end.

Definition setCanvas (e : Canvas2D.Element) (g : Component) : Component :=
  {| props := props g; state := state g; canvasElement := Some e |}.

Definition updateGraphCanvas (g : Component)
  : Component * list Js.Console :=
  match canvasElement g with
  | None => (g, [Js.ConsoleError "null canvas"])
  | Some canvas =>
      match Canvas2D.context2d canvas with
      | None => (g, [Js.ConsoleError "null canvas 2d context"])
      | Some ctx =>
          let z := zoomLevel (state g) in
          let ctx := Canvas2D.resetTransform ctx in
          let ctx :=
            Canvas2D.clearRect 0 0 (Js.ofN (Canvas2D.width canvas))
                               (Js.ofN (Canvas2D.height canvas)) ctx in
          let ctx := Canvas2D.scale z z ctx in
          let ctx := drawNodes ctx 0%N (nodes (props g)) in
          let ctx := Canvas2D.restore ctx in
          (setCanvas (Canvas2D.setContext ctx canvas) g,
           [Js.ConsoleLog "draw"; Js.ConsoleLogNumber z])
      end
  end.

(** *** Descriptions used in the statements *)

(** [nodes.entries()] counted from [idx]. *)
Fixpoint entries (idx : N) (ns : list BasicNode) : list (N * BasicNode) :=
  match ns with
  | [] => []
  | node :: rest => (idx, node) :: entries (N.succ idx) rest
  end.

End Graph.

(** ** The wheel filter of the d3-zoom [Visualization] *)

Module ZoomBehavior.

(** The fields of a source event that the filter reads. *)
Record SourceEvent : Type := mkSourceEvent
  { type : string; metaKey : bool; ctrlKey : bool; shiftKey : bool }.

(** The [filter] callback given to the zoom behavior.  The first
    component tells whether the event may start a zoom gesture, the
    second whether [onDisplayZoomWheelInfoMessage] was called. *)
Definition filter (wheelZoomRequiresModKey : option bool) (e : SourceEvent)
  : bool * bool :=
  if String.eqb (type e) "wheel" then
    let modKeySelected := metaKey e || ctrlKey e || shiftKey e in
    if Js.truthy wheelZoomRequiresModKey && negb modKeySelected
    then (false, true)
    else (true, false)
  else (true, false).

Section Wheel.

(** What d3-zoom does to the scale [k] for an event its filter accepts
    (library code, left abstract). *)
Variable zoomed : SourceEvent -> Q -> Q.

(** One input event: the zoom behavior consults the filter, the host
    ([Graph.handleDisplayZoomWheelInfoMessage], passed to the
    constructor as [onDisplayZoomWheelInfoMessage]) receives the signal,
    and the scale changes only if the filter accepts the event. *)
Definition dispatch (flag : option bool) (e : SourceEvent)
  (st : Graph.Component * Q) : Graph.Component * Q :=
  let '(host, k) := st in
  let '(accepted, signal) := filter flag e in
  let host := if signal then Graph.handleDisplayZoomWheelInfoMessage host
              else host in
  (host, if accepted then zoomed e k else k).

Definition dispatchAll (flag : option bool) (es : list SourceEvent)
  (st : Graph.Component * Q) : Graph.Component * Q :=
  fold_left (fun st e => dispatch flag e st) es st.

(** Number of [onDisplayZoomWheelInfoMessage] calls for a series of
    events. *)
Definition signals (flag : option bool) (es : list SourceEvent) : nat :=
  length (List.filter (fun e => snd (filter flag e)) es).

End Wheel.

(** A wheel event with no modifier key held. *)
Definition plainWheel (e : SourceEvent) : Prop :=
  type e = "wheel"%string /\ metaKey e = false /\ ctrlKey e = false
  /\ shiftKey e = false.

End ZoomBehavior.

(** ** The graph model *)

Module Model.

(** Modelled from the spec: [NodeModel], [RelationshipModel] and
    [GraphModel] are declared outside the given sources.  A node has an
    identity, a position and a radius; a relationship is a directed edge
    between two node identities; the graph exposes both as ordered
    sequences. *)
Record NodeModel : Type := mkNodeModel
  { nodeId : string; x : Q; y : Q; radius : Q }.

Record RelationshipModel : Type := mkRelationshipModel
  { relationshipId : string; source : string; target : string }.

Record GraphModel : Type := mkGraphModel
  { nodes : list NodeModel;
    relationships : list RelationshipModel }.

(** The value returned by [graph.getBoundingBox()]. *)
Record BoundingBox : Type := mkBoundingBox
  { boxX : Q; boxY : Q; boxWidth : Q; boxHeight : Q }.

(** Modelled from the spec: [GraphModel.getBoundingBox] is not in the
    given sources.  The box spans the minimum and maximum over all node
    centres minus and plus the radius; for the empty graph it is the
    zero-size box at the origin. *)
Definition boundingBox (g : GraphModel) : BoundingBox :=
  match nodes g with
  | [] => {| boxX := 0; boxY := 0; boxWidth := 0; boxHeight := 0 |}
  | n :: ns =>
      let minX := fold_left (fun a m => Qmin a (x m - radius m)) ns
                            (x n - radius n) in
      let maxX := fold_left (fun a m => Qmax a (x m + radius m)) ns
                            (x n + radius n) in
      let minY := fold_left (fun a m => Qmin a (y m - radius m)) ns
                            (y n - radius n) in
      let maxY := fold_left (fun a m => Qmax a (y m + radius m)) ns
                            (y n + radius n) in
      {| boxX := minX; boxY := minY;
         boxWidth := maxX - minX; boxHeight := maxY - minY |}
  end.

(** Modelled from the spec: [GraphGeometryModel] is not in the given
    sources.  The geometry frame holds, for each node, its centre and
    radius, recomputed from the graph on every tick. *)
Definition NodeGeometry : Type := list (string * (Q * Q) * Q).

Definition deriveGeometry (g : GraphModel) (_ : NodeGeometry)
  : NodeGeometry :=
  map (fun n => (nodeId n, (x n, y n), radius n)) (nodes g).

End Model.

(** ** The canvas [Visualization] *)

Module Visualization.

Section Visualization.

(** State of the [GraphGeometryModel] and its [onTick] method, which
    are outside the given sources. *)
Variable Geometry : Type.
Variable onTick : Model.GraphModel -> Geometry -> Geometry.

(** [GraphModel.getBoundingBox], outside the given sources. *)
Variable getBoundingBox : Model.GraphModel -> Model.BoundingBox.

(** Registered callbacks and the argument list of a [trigger] call. *)
Variable Callback : Type.
Variable Args : Type.

(** The fields of the class.  [canvas] and [canvasElement] refer to the
    same element, so one field stands for both. *)
Record Visualization : Type := mkVisualization
  { canvas : Canvas2D.Element;
    geometry : Geometry;
    zoomMinScaleExtent : Q;
    callbacks : gmap string (list Callback);
    draw : bool;
    isZoomClick : bool;
    scale : Q;
    graph : Model.GraphModel;
    isFullscreen : bool;
    wheelZoomRequiresModKey : option bool;
    initialZoomToFit : option bool }.

Definition setCanvas (e : Canvas2D.Element) (v : Visualization)
  : Visualization :=
  {| canvas := e; geometry := geometry v;
     zoomMinScaleExtent := zoomMinScaleExtent v; callbacks := callbacks v;
     draw := draw v; isZoomClick := isZoomClick v; scale := scale v;
     graph := graph v; isFullscreen := isFullscreen v;
     wheelZoomRequiresModKey := wheelZoomRequiresModKey v;
     initialZoomToFit := initialZoomToFit v |}.

Definition setGeometry (g : Geometry) (v : Visualization) : Visualization :=
  {| canvas := canvas v; geometry := g;
     zoomMinScaleExtent := zoomMinScaleExtent v; callbacks := callbacks v;
     draw := draw v; isZoomClick := isZoomClick v; scale := scale v;
     graph := graph v; isFullscreen := isFullscreen v;
     wheelZoomRequiresModKey := wheelZoomRequiresModKey v;
     initialZoomToFit := initialZoomToFit v |}.

Definition setCallbacks (c : gmap string (list Callback))
  (v : Visualization) : Visualization :=
  {| canvas := canvas v; geometry := geometry v;
     zoomMinScaleExtent := zoomMinScaleExtent v; callbacks := c;
     draw := draw v; isZoomClick := isZoomClick v; scale := scale v;
     graph := graph v; isFullscreen := isFullscreen v;
     wheelZoomRequiresModKey := wheelZoomRequiresModKey v;
     initialZoomToFit := initialZoomToFit v |}.

Definition setZoomFlags (d z : bool) (v : Visualization) : Visualization :=
  {| canvas := canvas v; geometry := geometry v;
     zoomMinScaleExtent := zoomMinScaleExtent v; callbacks := callbacks v;
     draw := d; isZoomClick := z; scale := scale v;
     graph := graph v; isFullscreen := isFullscreen v;
     wheelZoomRequiresModKey := wheelZoomRequiresModKey v;
     initialZoomToFit := initialZoomToFit v |}.

Definition setScale (k : Q) (v : Visualization) : Visualization :=
  {| canvas := canvas v; geometry := geometry v;
     zoomMinScaleExtent := zoomMinScaleExtent v; callbacks := callbacks v;
     draw := draw v; isZoomClick := isZoomClick v; scale := k;
     graph := graph v; isFullscreen := isFullscreen v;
     wheelZoomRequiresModKey := wheelZoomRequiresModKey v;
     initialZoomToFit := initialZoomToFit v |}.

Definition drawNode (ctx : Canvas2D.Context) (node : Model.NodeModel)
  : Canvas2D.Context :=
  Canvas2D.drawDisc (Canvas2D.CaptionText "Node")
                    (Model.x node) (Model.y node) 50 ctx.

(** What [render] does with a context at hand. *)
Definition paintFrame (canvasWidth canvasHeight k : Q) (g : Model.GraphModel)
  (ctx : Canvas2D.Context) : Canvas2D.Context :=
  let ctx := Canvas2D.resetTransform ctx in
  let ctx := Canvas2D.clearRect 0 0 canvasWidth canvasHeight ctx in
  let ctx := Canvas2D.translate (canvasWidth / 2) (canvasHeight / 2) ctx in
  let ctx := Canvas2D.scale k k ctx in
  fold_left drawNode (Model.nodes g) ctx.

Definition render (v : Visualization) : Visualization * list Js.Console :=
  let v := setGeometry (onTick (graph v) (geometry v)) v in
  let canvasWidth := Js.ofN (Canvas2D.width (canvas v)) in
  let canvasHeight := Js.ofN (Canvas2D.height (canvas v)) in
  match Canvas2D.context2d (canvas v) with
  | None => (v, [Js.ConsoleError "null ctx"])
  | Some ctx =>
      let ctx := paintFrame canvasWidth canvasHeight (scale v) (graph v) ctx in
      (setCanvas (Canvas2D.setContext ctx (canvas v)) v, [])
  end.

Definition getZoomScaleFactorToFitWholeGraph (v : Visualization)
  : option Q :=
  let canvasWidth := Js.ofN (Canvas2D.width (canvas v)) in
  let canvasHeight := Js.ofN (Canvas2D.height (canvas v)) in
  if Js.eqb canvasWidth 0 || Js.eqb canvasHeight 0 then Some 1
  else
    let graphBBox := getBoundingBox (graph v) in
    let graphWidth := Model.boxWidth graphBBox + 120 in
    let graphHeight := Model.boxHeight graphBBox + 120 in
    widthRatio ← (if Js.gtb graphWidth canvasWidth
                  then Js.div canvasWidth graphWidth else Some 1);
    heightRatio ← (if Js.gtb graphHeight canvasHeight
                   then Js.div canvasHeight graphHeight else Some 1);
    Some (Qmin widthRatio heightRatio).

Definition zoomToFitViewport (v : Visualization)
  : option (Visualization * list Js.Console) :=
  k ← getZoomScaleFactorToFitWholeGraph v;
  Some (render (setScale k v)).

(** The body only evaluates its parameter. *)
Definition adjustZoomMinScaleExtentToFitGraph (padding_factor : Q)
  (v : Visualization) : Visualization := v.

Definition zoomByType (zoomType : ZoomType) (v : Visualization)
  : option (Visualization * list Js.Console) :=
  let v := setZoomFlags true true v in
  match zoomType with
  | IN => Some (v, [])
  | OUT => Some (v, [])
  | FIT =>
      r ← zoomToFitViewport v;
      Some (adjustZoomMinScaleExtentToFitGraph 1 r.1, r.2)
  end.

(** A series of zoom requests. *)
Fixpoint zoomSequence (ops : list ZoomType) (v : Visualization)
  : option Visualization :=
  match ops with
  | [] => Some v
  | op :: rest => r ← zoomByType op v; zoomSequence rest r.1
  end.

(** [isNullish] comes from the utilities, outside the given sources; it
    holds of [null] and [undefined] only. *)
Definition on (event : string) (callback : Callback) (v : Visualization)
  : Js.Completion Visualization :=
  match Js.get (callbacks v) event with
  | Js.Undefined =>
      Js.Normal (setCallbacks (<[event := [callback]]> (callbacks v)) v)
  | Js.Own registered =>
      Js.Normal
        (setCallbacks (<[event := registered ++ [callback]]> (callbacks v)) v)
  | Js.Inherited => Js.TypeError
  end.

(** The calls made by [trigger], in order: callback and arguments. *)
Definition trigger (event : string) (args : Args) (v : Visualization)
  : Js.Completion (list (Callback * Args)) :=
  match Js.get (callbacks v) event with
  | Js.Undefined => Js.Normal []
  | Js.Own callbacksForEvent =>
      Js.Normal (map (fun callback => (callback, args)) callbacksForEvent)
  | Js.Inherited => Js.TypeError
  end.

(** A series of [on] calls, stopping at the first one that throws. *)
Fixpoint onAll (regs : list (string * Callback)) (v : Visualization)
  : Js.Completion Visualization :=
  match regs with
  | [] => Js.Normal v
  | (event, callback) :: rest =>
      match on event callback v with
      | Js.Normal v' => onAll rest v'
      | Js.TypeError => Js.TypeError
      end
  end.

(** The callbacks that a series of [on] calls registered for [event], in
    registration order. *)
Definition registeredFor (event : string) (regs : list (string * Callback))
  : list Callback :=
  map snd (List.filter (fun r => String.eqb r.1 event) regs).

(** *** Descriptions used in the statements *)

(** The callbacks held for an event name. *)
Definition held (v : Visualization) (event : string) : list Callback :=
  default [] (callbacks v !! event).

Definition canvasWidth (v : Visualization) : Q :=
  Js.ofN (Canvas2D.width (canvas v)).
Definition canvasHeight (v : Visualization) : Q :=
  Js.ofN (Canvas2D.height (canvas v)).

(** The padded extent of the bounding box, as computed by the fit. *)
Definition graphWidth (v : Visualization) : Q :=
  Model.boxWidth (getBoundingBox (graph v)) + 120.
Definition graphHeight (v : Visualization) : Q :=
  Model.boxHeight (getBoundingBox (graph v)) + 120.

End Visualization.

Arguments canvas {Geometry Callback} v.
Arguments geometry {Geometry Callback} v.
Arguments callbacks {Geometry Callback} v.
Arguments scale {Geometry Callback} v.
Arguments graph {Geometry Callback} v.
Arguments setCanvas {Geometry Callback} e v.
Arguments setGeometry {Geometry Callback} g v.
Arguments setCallbacks {Geometry Callback} c v.
Arguments setZoomFlags {Geometry Callback} d z v.
Arguments setScale {Geometry Callback} k v.
Arguments render {Geometry} onTick {Callback} v.
Arguments getZoomScaleFactorToFitWholeGraph
  {Geometry} getBoundingBox {Callback} v.
Arguments zoomToFitViewport {Geometry} onTick getBoundingBox {Callback} v.
Arguments zoomByType {Geometry} onTick getBoundingBox {Callback} zoomType v.
Arguments zoomSequence {Geometry} onTick getBoundingBox {Callback} ops v.
Arguments on {Geometry Callback} event callback v.
Arguments trigger {Geometry Callback Args} event args v.
Arguments onAll {Geometry Callback} regs v.
Arguments registeredFor {Callback} event regs.
Arguments held {Geometry Callback} v event.
Arguments canvasWidth {Geometry Callback} v.
Arguments canvasHeight {Geometry Callback} v.
Arguments graphWidth {Geometry} getBoundingBox {Callback} v.
Arguments graphHeight {Geometry} getBoundingBox {Callback} v.

End Visualization.

(** ** The behaviour the description words *)

Module Described.

(** A value clamped to the interval from [minScale] to [maxScale]. *)
Definition clamp (minScale maxScale k : Q) : Q :=
  Qmax minScale (Qmin maxScale k).

(** A zoom step that multiplies the scale by a fixed factor and clamps
    the product. *)
Definition zoomStep (minScale maxScale factor k : Q) : Q :=
  clamp minScale maxScale (factor * k).

End Described.

(** ** Concrete visualizations *)

Module Scenario.

(** A fresh 2D context, with the defaults of the canvas API. *)
Definition freshContext : Canvas2D.Context :=
  {| Canvas2D.transform := Canvas2D.identity;
     Canvas2D.fillStyle := "#000000";
     Canvas2D.font := "10px sans-serif";
     Canvas2D.textAlign := "start";
     Canvas2D.textBaseline := "alphabetic";
     Canvas2D.path := [];
     Canvas2D.painted := [] |}.

Definition canvasElement (w h : N) : Canvas2D.Element :=
  {| Canvas2D.width := w; Canvas2D.height := h;
     Canvas2D.context2d := Some freshContext |}.

(** A canvas whose [getContext('2d')] returns [null]. *)
Definition canvasWithoutContext (w h : N) : Canvas2D.Element :=
  {| Canvas2D.width := w; Canvas2D.height := h;
     Canvas2D.context2d := None |}.

(** A [Visualization] as its constructor leaves it: scale 1, no
    callbacks.  The geometry is the node geometry described in the
    specification, with callbacks named by numbers.  The initial
    [zoomMinScaleExtent] is [ZOOM_MIN_SCALE], a constant outside the
    given sources and read by none of the modelled methods. *)
Definition visualization (zoomMinScale : Q) (e : Canvas2D.Element)
  (g : Model.GraphModel)
  : Visualization.Visualization Model.NodeGeometry nat :=
  {| Visualization.canvas := e;
     Visualization.geometry := [];
     Visualization.zoomMinScaleExtent := zoomMinScale;
     Visualization.callbacks := ∅;
     Visualization.draw := false;
     Visualization.isZoomClick := false;
     Visualization.scale := 1;
     Visualization.graph := g;
     Visualization.isFullscreen := false;
     Visualization.wheelZoomRequiresModKey := Some true;
     Visualization.initialZoomToFit := None |}.

Definition emptyGraph : Model.GraphModel :=
  {| Model.nodes := []; Model.relationships := [] |}.

Definition nodeA : Model.NodeModel :=
  {| Model.nodeId := "a"; Model.x := 0; Model.y := 0; Model.radius := 50 |}.

Definition nodeB : Model.NodeModel :=
  {| Model.nodeId := "b"; Model.x := 200; Model.y := 0;
     Model.radius := 50 |}.

(** A node far from the model origin. *)
Definition nodeFar : Model.NodeModel :=
  {| Model.nodeId := "far"; Model.x := 1050; Model.y := 1050;
     Model.radius := 50 |}.

Definition twoNodes : Model.GraphModel :=
  {| Model.nodes := [nodeA; nodeB]; Model.relationships := [] |}.

Definition twoNodesLinked : Model.GraphModel :=
  {| Model.nodes := [nodeA; nodeB];
     Model.relationships :=
       [ {| Model.relationshipId := "r"; Model.source := "a";
            Model.target := "b" |} ] |}.

Definition farGraph : Model.GraphModel :=
  {| Model.nodes := [nodeFar]; Model.relationships := [] |}.

(** A graph wider than any small canvas. *)
Definition wideGraph : Model.GraphModel :=
  {| Model.nodes :=
       [ nodeA;
         {| Model.nodeId := "c"; Model.x := 10000; Model.y := 0;
            Model.radius := 50 |} ];
     Model.relationships := [] |}.

(** A [Graph] component as its constructor leaves it, with the wheel
    policy and the info message enabled. *)
Definition component (ns : list BasicNode)
  (e : option Canvas2D.Element) : Graph.Component :=
  {| Graph.props :=
       {| Graph.nodes := ns;
          Graph.wheelZoomRequiresModKey := Some true;
          Graph.wheelZoomInfoMessageEnabled := Some true |};
     Graph.state := Graph.initialState;
     Graph.canvasElement := e |}.

(** The same component at another zoom level. *)
Definition componentAt (z : Q) : Graph.Component :=
  Graph.setState (Graph.setZoomLevel z Graph.initialState)
                 (component [] None).

Definition person : BasicNode :=
  {| basicId := "1"; labels := ["name"%string];
     properties := {[ "name"%string := "Ann"%string ]} |}.

Definition plainWheelEvent : ZoomBehavior.SourceEvent :=
  {| ZoomBehavior.type := "wheel"; ZoomBehavior.metaKey := false;
     ZoomBehavior.ctrlKey := false; ZoomBehavior.shiftKey := false |}.

(** The centre of the first disc filled on the surface, if any. *)
Fixpoint firstDiscCentre (ps : list Canvas2D.Paint) : option (Q * Q) :=
  match ps with
  | [] => None
  | Canvas2D.Filled _ (c :: _) :: _ => Some (Canvas2D.centre c)
  | _ :: rest => firstDiscCentre rest
  end.

End Scenario.

(** ** More of the [Graph] component *)

Module GraphHandlers.

(** [ZoomLimitsReached], declared with the types outside the given
    sources: the two flags the handlers read. *)
Record ZoomLimitsReached : Type := mkZoomLimitsReached
  { zoomInLimitReached : bool; zoomOutLimitReached : bool }.

Definition handleZoomEvent (limitsReached : ZoomLimitsReached)
  (g : Graph.Component) : Graph.Component :=
  let s := Graph.state g in
  if negb (Bool.eqb (zoomInLimitReached limitsReached)
                    (Graph.zoomInLimitReached s))
     || negb (Bool.eqb (zoomOutLimitReached limitsReached)
                       (Graph.zoomOutLimitReached s))
  then
    Graph.setState
      {| Graph.zoomInLimitReached := zoomInLimitReached limitsReached;
         Graph.zoomOutLimitReached := zoomOutLimitReached limitsReached;
         Graph.displayingWheelZoomInfoMessage :=
           Graph.displayingWheelZoomInfoMessage s;
         Graph.zoomLevel := Graph.zoomLevel s |} g
  else g.

Definition zoomInClicked (g : Graph.Component)
  : Graph.Component * list Js.Console :=
  (Graph.zoomByType IN g, [Js.ConsoleLog "in"]).

Definition zoomOutClicked (g : Graph.Component)
  : Graph.Component * list Js.Console :=
  (Graph.zoomByType OUT g, [Js.ConsoleLog "out"]).

Definition zoomToFitClicked (g : Graph.Component)
  : Graph.Component * list Js.Console :=
  (Graph.zoomByType FIT g, []).

(** The active part of [componentDidUpdate]. *)
Definition componentDidUpdate (g : Graph.Component)
  : Graph.Component * list Js.Console :=
  Graph.updateGraphCanvas g.

(** A click on one of the three zoom buttons; the state change makes
    React update the component, which runs [componentDidUpdate]. *)
Definition clickAndUpdate (button : ZoomType) (g : Graph.Component)
  : Graph.Component * list Js.Console :=
  let '(g, clicked) :=
    match button with
    | IN => zoomInClicked g
    | OUT => zoomOutClicked g
    | FIT => zoomToFitClicked g
    end in
  let '(g, drawn) := componentDidUpdate g in
  (g, clicked ++ drawn).

Definition clicksAndUpdates (buttons : list ZoomType) (g : Graph.Component)
  : Graph.Component :=
  fold_left (fun g button => (clickAndUpdate button g).1) buttons g.

(** *** Descriptions used in the statements *)

(** How many times a zoom type occurs in a series of requests. *)
Definition occurrences (z : ZoomType) (ops : list ZoomType) : Z :=
  Z.of_nat
    (length (List.filter
               (fun op => match z, op with
                          | IN, IN | OUT, OUT | FIT, FIT => true
                          | _, _ => false
                          end) ops)).

End GraphHandlers.

(** ** The frame template (its resize effect) *)

Module FrameTemplate.

(** One call of [onResize]. *)
Record ResizeCall : Type := mkResizeCall
  { fullscreen : bool; collapsed : bool; height : N }.

(** What one run of the effect sees: the two flags and
    [frameContentElementRef.current?.clientHeight] ([None] when the
    element is not there). *)
Record Run : Type := mkRun
  { isFullscreen : bool; isCollapsed : bool; clientHeight : option N }.

(** [useState(10)]. *)
Definition initialLastHeight : N := 10.

(** One run of the effect: the new [lastHeight] and the [onResize]
    calls made. *)
Definition effect (r : Run) (lastHeight : N) : N * list ResizeCall :=
  match clientHeight r with
  | None => (lastHeight, [])
  | Some currHeight =>
      if (currHeight =? 0)%N then (lastHeight, [])
      else if (currHeight <? 300)%N then (lastHeight, [])
      else if negb (lastHeight =? currHeight)%N
           then (currHeight,
                 [ {| fullscreen := isFullscreen r;
                      collapsed := isCollapsed r;
                      height := currHeight |} ])
           else (lastHeight, [])
  end.

(** A series of runs of the effect. *)
Fixpoint effects (rs : list Run) (lastHeight : N) : N * list ResizeCall :=
  match rs with
  | [] => (lastHeight, [])
  | r :: rest =>
      let '(h, calls) := effect r lastHeight in
      let '(h', calls') := effects rest h in
      (h', calls ++ calls')
  end.

(** *** Descriptions used in the statements *)

(** No two neighbours of the list are equal. *)
Fixpoint distinctNeighbours (previous : N) (hs : list N) : Prop :=
  match hs with
  | [] => True
  | h :: rest => previous <> h /\ distinctNeighbours h rest
  end.

End FrameTemplate.

(** ** The d3-zoom [Visualization] *)

Module D3Visualization.

(** The fields of a wheel event that [wheelDelta] reads. *)
Record WheelEvent : Type := mkWheelEvent { deltaY : Q; deltaMode : N }.

Definition wheelDelta (e : WheelEvent) : Q :=
  - deltaY e
  * (if (deltaMode e =? 1)%N then 5 # 100
     else if negb (deltaMode e =? 0)%N then 1
          else 2 # 1000).

(** The value returned by [getZoomScaleFactorToFitWholeGraph]. *)
Record ScaleAndOffset : Type := mkScaleAndOffset
  { scale : Q; centerPointOffset : Q * Q }.

Section D3Visualization.

(** [ZOOM_FIT_PADDING_PERCENT] and [ZOOM_MAX_SCALE], from the constants
    module outside the given sources. *)
Variable ZOOM_FIT_PADDING_PERCENT : Q.
Variable ZOOM_MAX_SCALE : Q.

Variable Geometry : Type.
Variable onTick : Model.GraphModel -> Geometry -> Geometry.

(** The fields of the class that the modelled methods use;
    [scaleExtent] is the scale extent held by [zoomBehavior]. *)
Record Visualization : Type := mkVisualization
  { canvas : Canvas2D.Element;
    geometry : Geometry;
    scaleExtent : Q * Q;
    zoomMinScaleExtent : Q;
    draw : bool;
    isZoomClick : bool;
    graph : Model.GraphModel;
    isFullscreen : bool;
    wheelZoomRequiresModKey : option bool }.

(** The state the constructor builds; [zoomMinScale] is
    [ZOOM_MIN_SCALE], from the constants module. *)
Definition construct (zoomMinScale : Q) (canvasElement : Canvas2D.Element)
  (geometry0 : Geometry) (g : Model.GraphModel) (fullscreen : bool)
  (requiresModKey : option bool) : Visualization :=
  {| canvas := canvasElement; geometry := geometry0;
     scaleExtent := (zoomMinScale, ZOOM_MAX_SCALE);
     zoomMinScaleExtent := zoomMinScale;
     draw := false; isZoomClick := false; graph := g;
     isFullscreen := fullscreen;
     wheelZoomRequiresModKey := requiresModKey |}.

(** The ['zoom'] listener, for an event whose transform has scale
    [currentZoomScale]: the flags it sets and the limits it reports
    through [onZoomEvent]. *)
Definition onZoom (currentZoomScale : Q) (v : Visualization)
  : Visualization * GraphHandlers.ZoomLimitsReached :=
  ({| canvas := canvas v; geometry := geometry v;
      scaleExtent := scaleExtent v;
      zoomMinScaleExtent := zoomMinScaleExtent v;
      draw := true; isZoomClick := false; graph := graph v;
      isFullscreen := isFullscreen v;
      wheelZoomRequiresModKey := wheelZoomRequiresModKey v |},
   {| GraphHandlers.zoomInLimitReached :=
        Qle_bool ZOOM_MAX_SCALE currentZoomScale;
      GraphHandlers.zoomOutLimitReached :=
        Qle_bool currentZoomScale (zoomMinScaleExtent v) |}).

Definition drawNode (ctx : Canvas2D.Context) (node : Model.NodeModel)
  (xOffset yOffset : Q) : Canvas2D.Context :=
  let centerX := Model.x node + xOffset in
  let centerY := Model.y node + yOffset in
  Canvas2D.drawDisc (Canvas2D.CaptionText "Node") centerX centerY 50 ctx.

Definition render (v : Visualization) : Visualization * list Js.Console :=
  let g := onTick (graph v) (geometry v) in
  let v := {| canvas := canvas v; geometry := g;
              scaleExtent := scaleExtent v;
              zoomMinScaleExtent := zoomMinScaleExtent v;
              draw := draw v; isZoomClick := isZoomClick v;
              graph := graph v; isFullscreen := isFullscreen v;
              wheelZoomRequiresModKey := wheelZoomRequiresModKey v |} in
  let canvasWidth := Js.ofN (Canvas2D.width (canvas v)) in
  let canvasHeight := Js.ofN (Canvas2D.height (canvas v)) in
  match Canvas2D.context2d (canvas v) with
  | None => (v, [Js.ConsoleError "null ctx"])
  | Some ctx =>
      let ctx := Canvas2D.clearRect 0 0 canvasWidth canvasHeight ctx in
      let xOffset := canvasWidth / 2 in
      let yOffset := canvasHeight / 2 in
      let ctx :=
        fold_left (fun c node => drawNode c node xOffset yOffset)
                  (Model.nodes (graph v)) ctx in
      ({| canvas := Canvas2D.setContext ctx (canvas v);
          geometry := geometry v; scaleExtent := scaleExtent v;
          zoomMinScaleExtent := zoomMinScaleExtent v;
          draw := draw v; isZoomClick := isZoomClick v;
          graph := graph v; isFullscreen := isFullscreen v;
          wheelZoomRequiresModKey := wheelZoomRequiresModKey v |}, [])
  end.

(** The outer [None] stands for a non-finite number, the inner one for
    [undefined]. *)
Definition getZoomScaleFactorToFitWholeGraph (v : Visualization)
  : option (option ScaleAndOffset) :=
  let graphWidth := Js.ofN (Canvas2D.width (canvas v)) in
  let graphHeight := Js.ofN (Canvas2D.height (canvas v)) in
  let graphCenterX := graphWidth / 2 in
  let graphCenterY := graphHeight / 2 in
  if Js.eqb graphWidth 0 || Js.eqb graphHeight 0 then Some None
  else
    k ← Js.div (1 - ZOOM_FIT_PADDING_PERCENT) (Qmax graphWidth graphHeight);
    Some (Some {| scale := k;
                  centerPointOffset := (- graphCenterX, - graphCenterY) |}).

Definition adjustZoomMinScaleExtentToFitGraph (padding_factor : Q)
  (v : Visualization) : option Visualization :=
  scaleAndOffset ← getZoomScaleFactorToFitWholeGraph v;
  let scaleToFitGraphWithPadding :=
    match scaleAndOffset with
    | Some so => scale so * padding_factor
    | None => zoomMinScaleExtent v
    end in
  if Qle_bool scaleToFitGraphWithPadding (zoomMinScaleExtent v)
  then Some {| canvas := canvas v; geometry := geometry v;
               scaleExtent := (scaleToFitGraphWithPadding, ZOOM_MAX_SCALE);
               zoomMinScaleExtent := scaleToFitGraphWithPadding;
               draw := draw v; isZoomClick := isZoomClick v;
               graph := graph v; isFullscreen := isFullscreen v;
               wheelZoomRequiresModKey := wheelZoomRequiresModKey v |}
  else Some v.

(** A series of [adjustZoomMinScaleExtentToFitGraph] calls, each with
    its padding factor and the canvas size found at the time. *)
Fixpoint adjustAll (calls : list (Q * (N * N))) (v : Visualization)
  : option Visualization :=
  match calls with
  | [] => Some v
  | (padding_factor, (w, h)) :: rest =>
      let sized :=
        {| canvas := {| Canvas2D.width := w; Canvas2D.height := h;
                        Canvas2D.context2d :=
                          Canvas2D.context2d (canvas v) |};
           geometry := geometry v; scaleExtent := scaleExtent v;
           zoomMinScaleExtent := zoomMinScaleExtent v;
           draw := draw v; isZoomClick := isZoomClick v;
           graph := graph v; isFullscreen := isFullscreen v;
           wheelZoomRequiresModKey := wheelZoomRequiresModKey v |} in
      v' ← adjustZoomMinScaleExtentToFitGraph padding_factor sized;
      adjustAll rest v'
  end.

Definition resize (fullscreen requiresModKey : bool) (v : Visualization)
  : Visualization :=
  {| canvas := canvas v; geometry := geometry v;
     scaleExtent := scaleExtent v;
     zoomMinScaleExtent := zoomMinScaleExtent v;
     draw := draw v; isZoomClick := isZoomClick v; graph := graph v;
     isFullscreen := fullscreen;
     wheelZoomRequiresModKey := Some requiresModKey |}.

(** A zoom event reaching the host: the listener reports the limits to
    [Graph.handleZoomEvent], passed to the constructor as
    [onZoomEvent]. *)
Definition zoomEvent (st : Visualization * Graph.Component)
  (currentZoomScale : Q) : Visualization * Graph.Component :=
  let '(v, limitsReached) := onZoom currentZoomScale st.1 in
  (v, GraphHandlers.handleZoomEvent limitsReached st.2).

Definition zoomEvents (scales : list Q)
  (st : Visualization * Graph.Component)
  : Visualization * Graph.Component :=
  fold_left zoomEvent scales st.

End D3Visualization.

Arguments canvas {Geometry} v.
Arguments geometry {Geometry} v.
Arguments scaleExtent {Geometry} v.
Arguments zoomMinScaleExtent {Geometry} v.
Arguments graph {Geometry} v.
Arguments wheelZoomRequiresModKey {Geometry} v.
Arguments isFullscreen {Geometry} v.
Arguments draw {Geometry} v.
Arguments isZoomClick {Geometry} v.
Arguments construct ZOOM_MAX_SCALE {Geometry} zoomMinScale canvasElement
  geometry0 g fullscreen requiresModKey.
Arguments onZoom ZOOM_MAX_SCALE {Geometry} currentZoomScale v.
Arguments render {Geometry} onTick v.
Arguments getZoomScaleFactorToFitWholeGraph
  ZOOM_FIT_PADDING_PERCENT {Geometry} v.
Arguments adjustZoomMinScaleExtentToFitGraph
  ZOOM_FIT_PADDING_PERCENT ZOOM_MAX_SCALE {Geometry} padding_factor v.
Arguments adjustAll
  ZOOM_FIT_PADDING_PERCENT ZOOM_MAX_SCALE {Geometry} calls v.
Arguments resize {Geometry} fullscreen requiresModKey v.
Arguments zoomEvent ZOOM_MAX_SCALE {Geometry} st currentZoomScale.
Arguments zoomEvents ZOOM_MAX_SCALE {Geometry} scales st.

End D3Visualization.

(** ** The canvas [Visualization] and its force simulation *)

(** The [options] of [update]. *)
Module UpdateOptions.

Record t : Type := mk
  { updateNodes : bool;
    updateRelationships : bool;
    restartSimulation : option bool }.

End UpdateOptions.

Module Lifecycle.

Section Lifecycle.

Variable Geometry : Type.
Variable Callback : Type.
Variable Args : Type.

(** State of the [ForceSimulation], which is outside the given sources,
    and its three methods called here, taken to act on that state
    only. *)
Variable Simulation : Type.
Variable simulationUpdateNodes : Model.GraphModel -> Simulation -> Simulation.
Variable simulationUpdateRelationships :
  Model.GraphModel -> Simulation -> Simulation.
Variable simulationRestart : Simulation -> Simulation.

(** [GraphGeometryModel.onTick] and [onGraphChange], outside the given
    sources; the two flags are [updateNodes] and
    [updateRelationships]. *)
Variable onTick : Model.GraphModel -> Geometry -> Geometry.
Variable onGraphChange :
  Model.GraphModel -> bool -> bool -> Geometry -> Geometry.

(** The empty argument list of [trigger('updated')]. *)
Variable noArguments : Args.

(** The visualization together with its [forceSimulation]. *)
Record Engine : Type := mkEngine
  { visualization : Visualization.Visualization Geometry Callback;
    forceSimulation : Simulation }.

Definition updateNodes (e : Engine) : Engine :=
  let v := visualization e in
  let g := Visualization.graph v in
  {| visualization :=
       Visualization.setGeometry
         (onGraphChange g true false (Visualization.geometry v)) v;
     forceSimulation :=
       simulationUpdateRelationships g
         (simulationUpdateNodes g (forceSimulation e)) |}.

Definition updateRelationships (e : Engine) : Engine * list Js.Console :=
  let v := visualization e in
  let g := Visualization.graph v in
  let v := Visualization.setGeometry
             (onGraphChange g false true (Visualization.geometry v)) v in
  let sim := simulationUpdateRelationships g (forceSimulation e) in
  let '(v, log) := Visualization.render onTick v in
  ({| visualization := v; forceSimulation := sim |}, log).

(** The body computes a local constant and assigns nothing. *)
Definition setInitialZoom (e : Engine) : Engine := e.

Definition init (e : Engine) : Engine * list Js.Console :=
  let e := updateNodes e in
  let '(e, log) := updateRelationships e in
  let e :=
    {| visualization :=
         Visualization.adjustZoomMinScaleExtentToFitGraph
           Geometry Callback (3 # 4) (visualization e);
       forceSimulation := forceSimulation e |} in
  (setInitialZoom e, log).

(** The result holds the engine, the console output and the calls made
    by [trigger('updated')]. *)
Definition update (options : UpdateOptions.t) (e : Engine)
  : Js.Completion (Engine * list Js.Console * list (Callback * Args)) :=
  let e := if UpdateOptions.updateNodes options then updateNodes e else e in
  let '(e, log) :=
    if UpdateOptions.updateRelationships options then updateRelationships e
    else (e, []) in
  let e :=
    if default true (UpdateOptions.restartSimulation options)
    then {| visualization := visualization e;
            forceSimulation := simulationRestart (forceSimulation e) |}
    else e in
  match Visualization.trigger "updated" noArguments (visualization e) with
  | Js.Normal calls => Js.Normal (e, log, calls)
  | Js.TypeError => Js.TypeError
  end.

Definition resize (fullscreen requiresModKey : bool)
  (v : Visualization.Visualization Geometry Callback)
  : Visualization.Visualization Geometry Callback :=
  {| Visualization.canvas := Visualization.canvas v;
     Visualization.geometry := Visualization.geometry v;
     Visualization.zoomMinScaleExtent :=
       Visualization.zoomMinScaleExtent _ _ v;
     Visualization.callbacks := Visualization.callbacks v;
     Visualization.draw := Visualization.draw _ _ v;
     Visualization.isZoomClick := Visualization.isZoomClick _ _ v;
     Visualization.scale := Visualization.scale v;
     Visualization.graph := Visualization.graph v;
     Visualization.isFullscreen := fullscreen;
     Visualization.wheelZoomRequiresModKey := Some requiresModKey;
     Visualization.initialZoomToFit :=
       Visualization.initialZoomToFit _ _ v |}.

End Lifecycle.

Arguments visualization {Geometry Callback Simulation} e.
Arguments forceSimulation {Geometry Callback Simulation} e.
Arguments resize {Geometry Callback} fullscreen requiresModKey v.

End Lifecycle.

(** ** More concrete inputs *)

Module Usage.

(** Constants for the d3-zoom visualization: a padding of 5 percent and
    a largest scale of 2 (the constants module is outside the given
    sources). *)
Definition d3 (zoomMinScale : Q) (w h : N)
  : D3Visualization.Visualization Model.NodeGeometry :=
  D3Visualization.construct 2 zoomMinScale (Scenario.canvasElement w h)
    [] Scenario.twoNodes false (Some true).

Definition shiftWheelEvent : ZoomBehavior.SourceEvent :=
  {| ZoomBehavior.type := "wheel"; ZoomBehavior.metaKey := false;
     ZoomBehavior.ctrlKey := false; ZoomBehavior.shiftKey := true |}.

Definition mouseDownEvent : ZoomBehavior.SourceEvent :=
  {| ZoomBehavior.type := "mousedown"; ZoomBehavior.metaKey := false;
     ZoomBehavior.ctrlKey := false; ZoomBehavior.shiftKey := false |}.

(** A canvas whose context was left scaled, with a style set. *)
Definition usedCanvas (w h : N) : Canvas2D.Element :=
  {| Canvas2D.width := w; Canvas2D.height := h;
     Canvas2D.context2d :=
       Some (Canvas2D.setFillStyle "red"
               (Canvas2D.scale 2 2 Scenario.freshContext)) |}.

Definition registrations : list (string * nat) :=
  [ ("updated"%string, 1%nat); ("nodeClicked"%string, 2%nat);
    ("updated"%string, 3%nat) ].

(** A simulation that only counts the calls it receives. *)
Definition engine (e : Canvas2D.Element) (g : Model.GraphModel)
  : Lifecycle.Engine Model.NodeGeometry nat nat :=
  {| Lifecycle.visualization := Scenario.visualization (1 # 10) e g;
     Lifecycle.forceSimulation := 0%nat |}.

End Usage.

(** ** Paints that agree as numbers *)

Module Compare.

Definition samePoint (p q : Q * Q) : Prop :=
  fst p == fst q /\ snd p == snd q.

Definition sameCircle (a b : Canvas2D.Circle) : Prop :=
  samePoint (Canvas2D.centre a) (Canvas2D.centre b)
  /\ Canvas2D.radiusX a == Canvas2D.radiusX b
  /\ Canvas2D.radiusY a == Canvas2D.radiusY b.

(** The same paint up to the representation of the numbers. *)
Definition samePaint (p q : Canvas2D.Paint) : Prop :=
  match p, q with
  | Canvas2D.Cleared c w h, Canvas2D.Cleared c' w' h' =>
      samePoint c c' /\ w == w' /\ h == h'
  | Canvas2D.Filled s shape, Canvas2D.Filled s' shape' =>
      s = s' /\ Forall2 sameCircle shape shape'
  | Canvas2D.Stroked shape, Canvas2D.Stroked shape' =>
      Forall2 sameCircle shape shape'
  | Canvas2D.Text s f a b caption anchor m,
    Canvas2D.Text s' f' a' b' caption' anchor' m' =>
      s = s' /\ f = f' /\ a = a' /\ b = b' /\ caption = caption'
      /\ samePoint anchor anchor' /\ m == m'
  | _, _ => False
  end.

End Compare.

(** * Properties *)

(** ** Numbers *)

Lemma ofN_nonneg (n : N) : 0 <= Js.ofN n.
Proof.
  unfold Js.ofN. change 0 with (inject_Z 0). rewrite <- Zle_Qle. lia.
Qed.

Lemma ofN_pos (n : N) : (0 < n)%N -> 0 < Js.ofN n.
Proof.
  intros H. unfold Js.ofN. change 0 with (inject_Z 0).
  rewrite <- Zlt_Qlt. lia.
Qed.

Lemma ofN_eqb_zero (n : N) : Js.eqb (Js.ofN n) 0 = (n =? 0)%N.
Proof.
  unfold Js.eqb. destruct (N.eqb_spec n 0) as [->|Hn].
  - reflexivity.
  - destruct (Qeq_bool (Js.ofN n) 0) eqn:E; [|reflexivity].
    apply Qeq_bool_iff in E.
    assert (0 < Js.ofN n) by (apply ofN_pos; lia). lra.
Qed.

Lemma div_positive (a b : Q) : 0 < b -> Js.div a b = Some (a / b).
Proof.
  intros Hb. unfold Js.div.
  destruct (Qeq_bool b 0) eqn:E; [|reflexivity].
  apply Qeq_bool_iff in E. lra.
Qed.

(** One of the two ratios of the fit computation: it is a finite number
    in (0, 1], it makes the padded extent fit, and it is 1 when the
    padded extent fits already. *)
Lemma ratio_spec (canvasSize graphSize : Q) :
  0 < canvasSize ->
  exists r,
    (if Js.gtb graphSize canvasSize
     then Js.div canvasSize graphSize else Some 1) = Some r
    /\ 0 < r /\ r <= 1
    /\ (r == 1 -> graphSize <= canvasSize)
    /\ (graphSize <= canvasSize -> r = 1)
    /\ (canvasSize < graphSize -> r * graphSize == canvasSize).
Proof.
  intros Hc. unfold Js.gtb.
  destruct (Qlt_le_dec canvasSize graphSize) as [Hgt | Hle].
  - exists (canvasSize / graphSize).
    assert (Hg : 0 < graphSize) by lra.
    rewrite div_positive by exact Hg.
    assert (Hlt : canvasSize / graphSize < 1)
      by (apply Qlt_shift_div_r; lra).
    repeat split.
    + apply Qlt_shift_div_l; lra.
    + lra.
    + intros E. lra.
    + intros Hfit. lra.
    + intros _. field. lra.
  - exists 1. repeat split; intros; lra.
Qed.

(** ** The drawing context *)

Lemma viewTransform_apply (dx dy k : Q) (p : Q * Q) :
  fst (Canvas2D.apply (Canvas2D.viewTransform dx dy k) p) == dx + k * fst p
  /\ snd (Canvas2D.apply (Canvas2D.viewTransform dx dy k) p) == dy + k * snd p.
Proof. unfold Canvas2D.apply, Canvas2D.viewTransform; simpl. split; ring. Qed.

Lemma drawDisc_transform label x y r c :
  Canvas2D.transform (Canvas2D.drawDisc label x y r c)
  = Canvas2D.transform c.
Proof. reflexivity. Qed.

Lemma drawDisc_painted label x y r c :
  Canvas2D.painted (Canvas2D.drawDisc label x y r c)
  = Canvas2D.painted c ++ Canvas2D.discPaints (Canvas2D.transform c) label x y r.
Proof.
  unfold Canvas2D.drawDisc, Canvas2D.discPaints. simpl.
  now rewrite <- !app_assoc.
Qed.

Lemma drawNodes_transform (ns : list Model.NodeModel) c :
  Canvas2D.transform (fold_left Visualization.drawNode ns c)
  = Canvas2D.transform c.
Proof.
  revert c. induction ns as [|n ns IH]; intros c; simpl; [reflexivity|].
  rewrite IH. apply drawDisc_transform.
Qed.

Lemma drawNodes_painted (ns : list Model.NodeModel) c :
  Canvas2D.painted (fold_left Visualization.drawNode ns c)
  = Canvas2D.painted c
    ++ flat_map (fun n => Canvas2D.discPaints (Canvas2D.transform c)
                            (Canvas2D.CaptionText "Node")
                            (Model.x n) (Model.y n) 50) ns.
Proof.
  revert c. induction ns as [|n ns IH]; intros c; simpl.
  - now rewrite app_nil_r.
  - rewrite IH. unfold Visualization.drawNode.
    rewrite drawDisc_painted, drawDisc_transform.
    now rewrite <- app_assoc.
Qed.

(** One frame of [Visualization.render]: the surface is cleared, then
    one disc per node is painted, in the order of [graph.nodes()], under
    the view transform. *)
Lemma paintFrame_painted (cw ch k : Q) (g : Model.GraphModel) c :
  Canvas2D.painted (Visualization.paintFrame cw ch k g c)
  = Canvas2D.painted c
    ++ Canvas2D.Cleared (Canvas2D.apply Canvas2D.identity (0, 0))
                        (1 * cw) (1 * ch)
       :: flat_map (fun n => Canvas2D.discPaints (Canvas2D.viewTransform (cw / 2) (ch / 2) k)
                               (Canvas2D.CaptionText "Node")
                               (Model.x n) (Model.y n) 50)
                   (Model.nodes g).
Proof.
  unfold Visualization.paintFrame. rewrite drawNodes_painted. simpl.
  now rewrite <- app_assoc.
Qed.

Lemma paintFrame_transform (cw ch k : Q) (g : Model.GraphModel) c :
  Canvas2D.transform (Visualization.paintFrame cw ch k g c)
  = Canvas2D.viewTransform (cw / 2) (ch / 2) k.
Proof.
  unfold Visualization.paintFrame. now rewrite drawNodes_transform.
Qed.

Lemma graph_drawNodes_transform (ns : list BasicNode) (idx : N) c :
  Canvas2D.transform (Graph.drawNodes c idx ns) = Canvas2D.transform c.
Proof.
  revert idx c. induction ns as [|n ns IH]; intros idx c; simpl;
    [reflexivity|].
  rewrite IH. apply drawDisc_transform.
Qed.

Lemma graph_drawNodes_painted (ns : list BasicNode) (idx : N) c :
  Canvas2D.painted (Graph.drawNodes c idx ns)
  = Canvas2D.painted c
    ++ flat_map (fun e => Canvas2D.discPaints (Canvas2D.transform c)
                            (Graph.caption e.2) (Js.ofN e.1 * 100) 100 50)
                (Graph.entries idx ns).
Proof.
  revert idx c. induction ns as [|n ns IH]; intros idx c; simpl.
  - now rewrite app_nil_r.
  - rewrite IH. unfold Graph.drawNode.
    rewrite drawDisc_painted, drawDisc_transform.
    now rewrite <- app_assoc.
Qed.

(** One drawing pass of [Graph.updateGraphCanvas]: the surface is
    cleared, then one disc per node is painted at [(idx * 100, 100)],
    under a transform that only scales by the zoom level. *)
Lemma updateGraphCanvas_paints (g : Graph.Component)
  (canvas : Canvas2D.Element) (ctx : Canvas2D.Context) :
  Graph.canvasElement g = Some canvas ->
  Canvas2D.context2d canvas = Some ctx ->
  exists ctx' corner w h,
    Graph.canvasElement (Graph.updateGraphCanvas g).1
    = Some (Canvas2D.setContext ctx' canvas)
    /\ Graph.state (Graph.updateGraphCanvas g).1 = Graph.state g
    /\ Canvas2D.painted ctx'
       = Canvas2D.painted ctx
         ++ Canvas2D.Cleared corner w h
            :: flat_map
                 (fun e => Canvas2D.discPaints (Canvas2D.transform ctx')
                             (Graph.caption e.2) (Js.ofN e.1 * 100) 100 50)
                 (Graph.entries 0 (Graph.nodes (Graph.props g)))
    /\ (fst corner == 0 /\ snd corner == 0
        /\ w == Js.ofN (Canvas2D.width canvas)
        /\ h == Js.ofN (Canvas2D.height canvas))
    /\ forall p,
         fst (Canvas2D.apply (Canvas2D.transform ctx') p)
         == Graph.zoomLevel (Graph.state g) * fst p
         /\ snd (Canvas2D.apply (Canvas2D.transform ctx') p)
            == Graph.zoomLevel (Graph.state g) * snd p.
Proof.
  intros Hc Hx. unfold Graph.updateGraphCanvas. rewrite Hc, Hx.
  cbn [fst]. unfold Canvas2D.restore.
  eexists. exists (Canvas2D.apply Canvas2D.identity (0, 0)).
  exists (1 * Js.ofN (Canvas2D.width canvas)).
  exists (1 * Js.ofN (Canvas2D.height canvas)).
  split; [reflexivity|]. split; [reflexivity|].
  rewrite graph_drawNodes_painted, graph_drawNodes_transform.
  split; [simpl; now rewrite <- app_assoc|]. split.
  - unfold Canvas2D.apply, Canvas2D.identity. simpl. repeat split; ring.
  - intros p. unfold Canvas2D.apply. simpl. split; ring.
Qed.

(** ** Fit to viewport and rendering of the canvas [Visualization] *)

Section FitAndRender.

Context {Geometry Callback : Type}.
Variable onTick : Model.GraphModel -> Geometry -> Geometry.
Variable getBoundingBox : Model.GraphModel -> Model.BoundingBox.

Local Notation "'Viz'" := (Visualization.Visualization Geometry Callback).
Local Notation "'fitScale'" :=
  (Visualization.getZoomScaleFactorToFitWholeGraph getBoundingBox).
Local Notation "'render'" := (Visualization.render onTick).
Local Notation "'zoomByType'" :=
  (Visualization.zoomByType onTick getBoundingBox).
Local Notation "'zoomSequence'" :=
  (Visualization.zoomSequence onTick getBoundingBox).
Local Notation "'canvasWidth'" := Visualization.canvasWidth.
Local Notation "'canvasHeight'" := Visualization.canvasHeight.
Local Notation "'graphWidth'" := (Visualization.graphWidth getBoundingBox).
Local Notation "'graphHeight'" :=
  (Visualization.graphHeight getBoundingBox).

Lemma fit_zero_canvas (v : Viz) :
  Canvas2D.width (Visualization.canvas v) = 0%N
  \/ Canvas2D.height (Visualization.canvas v) = 0%N ->
  fitScale v = Some 1.
Proof.
  intros H. unfold Visualization.getZoomScaleFactorToFitWholeGraph.
  rewrite !ofN_eqb_zero.
  destruct H as [-> | ->]; simpl; [reflexivity|].
  now rewrite orb_true_r.
Qed.

Lemma fit_positive_canvas (v : Viz) :
  (0 < Canvas2D.width (Visualization.canvas v))%N ->
  (0 < Canvas2D.height (Visualization.canvas v))%N ->
  exists widthRatio heightRatio,
    fitScale v = Some (Qmin widthRatio heightRatio)
    /\ (0 < widthRatio /\ widthRatio <= 1
        /\ (graphWidth v <= canvasWidth v -> widthRatio = 1)
        /\ (canvasWidth v < graphWidth v ->
            widthRatio * graphWidth v == canvasWidth v))
    /\ (0 < heightRatio /\ heightRatio <= 1
        /\ (graphHeight v <= canvasHeight v -> heightRatio = 1)
        /\ (canvasHeight v < graphHeight v ->
            heightRatio * graphHeight v == canvasHeight v)).
Proof.
  intros Hw Hh.
  destruct (ratio_spec (canvasWidth v) (graphWidth v) (ofN_pos _ Hw))
    as (wr & Ewr & Hwr0 & Hwr1 & _ & Hwfit & Hwmul).
  destruct (ratio_spec (canvasHeight v) (graphHeight v) (ofN_pos _ Hh))
    as (hr & Ehr & Hhr0 & Hhr1 & _ & Hhfit & Hhmul).
  exists wr, hr. split; [|tauto].
  unfold Visualization.getZoomScaleFactorToFitWholeGraph.
  rewrite !ofN_eqb_zero.
  destruct (N.eqb_spec (Canvas2D.width (Visualization.canvas v)) 0);
    [lia|].
  destruct (N.eqb_spec (Canvas2D.height (Visualization.canvas v)) 0);
    [lia|].
  simpl orb. cbv iota.
  unfold Visualization.canvasWidth, Visualization.graphWidth in Ewr. rewrite Ewr.
  unfold Visualization.canvasHeight, Visualization.graphHeight in Ehr. rewrite Ehr.
  reflexivity.
Qed.

(** The fit never divides by zero and always yields a number in
    (0, 1]. *)
Lemma fit_total (v : Viz) :
  exists k, fitScale v = Some k /\ 0 < k /\ k <= 1.
Proof.
  destruct (N.eq_0_gt_0_cases (Canvas2D.width (Visualization.canvas v)))
    as [Hw | Hw].
  { exists 1. split; [apply fit_zero_canvas; now left | lra]. }
  destruct (N.eq_0_gt_0_cases (Canvas2D.height (Visualization.canvas v)))
    as [Hh | Hh].
  { exists 1. split; [apply fit_zero_canvas; now right | lra]. }
  destruct (fit_positive_canvas v Hw Hh)
    as (wr & hr & E & (Hw0 & Hw1 & _) & (Hh0 & Hh1 & _)).
  exists (Qmin wr hr). split; [exact E|].
  split.
  - apply Q.min_glb_lt; assumption.
  - apply Qle_trans with wr; [apply Q.le_min_l | exact Hw1].
Qed.

(** The padded box, scaled by the fit factor, is no larger than the
    canvas. *)
Lemma fit_fits (v : Viz) (k : Q) :
  (0 < Canvas2D.width (Visualization.canvas v))%N ->
  (0 < Canvas2D.height (Visualization.canvas v))%N ->
  fitScale v = Some k ->
  k * graphWidth v <= canvasWidth v /\ k * graphHeight v <= canvasHeight v.
Proof.
  intros Hw Hh E.
  destruct (fit_positive_canvas v Hw Hh)
    as (wr & hr & E' & (Hw0 & Hw1 & Hwfit & Hwmul)
        & (Hh0 & Hh1 & Hhfit & Hhmul)).
  rewrite E in E'. injection E' as ->.
  assert (Hcw := ofN_pos _ Hw). assert (Hch := ofN_pos _ Hh).
  fold (canvasWidth v) in Hcw. fold (canvasHeight v) in Hch.
  assert (Hk0 : 0 < Qmin wr hr) by (apply Q.min_glb_lt; assumption).
  assert (Hkw : Qmin wr hr <= wr) by apply Q.le_min_l.
  assert (Hkh : Qmin wr hr <= hr) by apply Q.le_min_r.
  split.
  - destruct (Qlt_le_dec (canvasWidth v) (graphWidth v)) as [Hgt | Hle].
    + specialize (Hwmul Hgt). nra.
    + nra.
  - destruct (Qlt_le_dec (canvasHeight v) (graphHeight v)) as [Hgt | Hle].
    + specialize (Hhmul Hgt). nra.
    + nra.
Qed.

(** *** Rendering *)

Lemma render_no_context (v : Viz) :
  Canvas2D.context2d (Visualization.canvas v) = None ->
  render v
  = (Visualization.setGeometry
       (onTick (Visualization.graph v) (Visualization.geometry v)) v,
     [Js.ConsoleError "null ctx"]).
Proof. intros H. unfold Visualization.render. simpl. now rewrite H. Qed.

Lemma render_context (v : Viz) (ctx : Canvas2D.Context) :
  Canvas2D.context2d (Visualization.canvas v) = Some ctx ->
  render v
  = (Visualization.setCanvas
       (Canvas2D.setContext
          (Visualization.paintFrame (canvasWidth v) (canvasHeight v)
             (Visualization.scale v) (Visualization.graph v) ctx)
          (Visualization.canvas v))
       (Visualization.setGeometry
          (onTick (Visualization.graph v) (Visualization.geometry v)) v),
     []).
Proof. intros H. unfold Visualization.render. simpl. now rewrite H. Qed.

(** [render] changes neither the scale, nor the graph, nor the size of
    the canvas. *)
Lemma render_preserves (v : Viz) :
  Visualization.scale (render v).1 = Visualization.scale v
  /\ Visualization.graph (render v).1 = Visualization.graph v
  /\ Canvas2D.width (Visualization.canvas (render v).1)
     = Canvas2D.width (Visualization.canvas v)
  /\ Canvas2D.height (Visualization.canvas (render v).1)
     = Canvas2D.height (Visualization.canvas v).
Proof.
  destruct (Canvas2D.context2d (Visualization.canvas v)) as [ctx|] eqn:E.
  - rewrite (render_context v ctx E). simpl. tauto.
  - rewrite (render_no_context v E). simpl. tauto.
Qed.

(** *** Zoom requests *)

Lemma zoomByType_in_out (zoomType : ZoomType) (v : Viz) :
  zoomType <> FIT ->
  zoomByType zoomType v = Some (Visualization.setZoomFlags true true v, []).
Proof. destruct zoomType; intros H; [reflexivity | reflexivity | congruence]. Qed.

Lemma zoomByType_fit (v : Viz) (k : Q) :
  fitScale v = Some k ->
  zoomByType FIT v
  = Some (render (Visualization.setScale k
                    (Visualization.setZoomFlags true true v))).
Proof.
  intros E. unfold Visualization.zoomByType, Visualization.zoomToFitViewport.
  change (fitScale (Visualization.setZoomFlags true true v))
    with (fitScale v).
  rewrite E. simpl.
  unfold Visualization.adjustZoomMinScaleExtentToFitGraph.
  now destruct (render _).
Qed.

(** After a fit request the scale is the fit factor; graph and canvas
    size are as before. *)
Lemma zoomByType_fit_result (v : Viz) (k : Q) :
  fitScale v = Some k ->
  exists v' log,
    zoomByType FIT v = Some (v', log)
    /\ Visualization.scale v' = k
    /\ Visualization.graph v' = Visualization.graph v
    /\ Canvas2D.width (Visualization.canvas v')
       = Canvas2D.width (Visualization.canvas v)
    /\ Canvas2D.height (Visualization.canvas v')
       = Canvas2D.height (Visualization.canvas v).
Proof.
  intros E. rewrite (zoomByType_fit v k E).
  set (w := Visualization.setScale k _).
  destruct (render_preserves w) as (Hs & Hg & Hw & Hh).
  exists (render w).1, (render w).2.
  rewrite <- surjective_pairing. repeat split; assumption.
Qed.

(** *** Claims on the fit factor *)

(** C9: for every graph and every canvas of positive width and height,
    [getZoomScaleFactorToFitWholeGraph] returns a number in (0, 1]; it
    is 1 whenever the padded bounding box already fits in the canvas in
    both dimensions, and [zoomByType(FIT)] sets the scale to that
    number, so it never enlarges the view beyond the identity scale. *)
Theorem C9_fit_factor_in_unit_interval (v : Viz) :
  (0 < Canvas2D.width (Visualization.canvas v))%N ->
  (0 < Canvas2D.height (Visualization.canvas v))%N ->
  exists k,
    fitScale v = Some k
    /\ 0 < k /\ k <= 1
    /\ (graphWidth v <= canvasWidth v ->
        graphHeight v <= canvasHeight v -> k == 1)
    /\ exists v' log,
         zoomByType FIT v = Some (v', log) /\ Visualization.scale v' = k.
Proof.
  intros Hw Hh.
  destruct (fit_positive_canvas v Hw Hh)
    as (wr & hr & E & (Hw0 & Hw1 & Hwfit & _) & (Hh0 & Hh1 & Hhfit & _)).
  exists (Qmin wr hr). split; [exact E|].
  split; [apply Q.min_glb_lt; assumption|].
  split; [apply Qle_trans with wr; [apply Q.le_min_l | exact Hw1]|].
  split.
  - intros Fw Fh. rewrite (Hwfit Fw), (Hhfit Fh). reflexivity.
  - destruct (zoomByType_fit_result v _ E) as (v' & log & Ez & Hs & _).
    now exists v', log.
Qed.

(** C3, amended: for every graph and every canvas of at least 1 by 1,
    [zoomByType(FIT)] sets the scale so that the bounding box plus the
    padding of 120, once scaled, is no wider and no higher than the
    canvas; graph and canvas size are untouched, so the bound holds for
    the recomputed box too.  The frame is painted under the transform
    that sends a model point [p] to the canvas centre plus the scale
    times [p]: the model origin, not the centre of the box, lands on the
    centre of the viewport. *)
Theorem C3_fit_scale_fits_viewport (v : Viz) :
  (1 <= Canvas2D.width (Visualization.canvas v))%N ->
  (1 <= Canvas2D.height (Visualization.canvas v))%N ->
  exists v' log,
    zoomByType FIT v = Some (v', log)
    /\ Visualization.scale v' * graphWidth v' <= canvasWidth v'
    /\ Visualization.scale v' * graphHeight v' <= canvasHeight v'
    /\ forall ctx',
         Canvas2D.context2d (Visualization.canvas v') = Some ctx' ->
         forall p,
           fst (Canvas2D.apply (Canvas2D.transform ctx') p)
           == canvasWidth v' / 2 + Visualization.scale v' * fst p
           /\ snd (Canvas2D.apply (Canvas2D.transform ctx') p)
              == canvasHeight v' / 2 + Visualization.scale v' * snd p.
Proof.
  intros Hw Hh.
  assert (Hw' : (0 < Canvas2D.width (Visualization.canvas v))%N) by lia.
  assert (Hh' : (0 < Canvas2D.height (Visualization.canvas v))%N) by lia.
  destruct (fit_total v) as (k & E & _).
  destruct (fit_fits v k Hw' Hh' E) as [Fw Fh].
  rewrite (zoomByType_fit v k E).
  set (w := Visualization.setScale k _).
  exists (render w).1, (render w).2.
  rewrite <- surjective_pairing. split; [reflexivity|].
  destruct (render_preserves w) as (Hs & Hg & Hcw & Hch).
  unfold Visualization.graphWidth, Visualization.graphHeight,
    Visualization.canvasWidth, Visualization.canvasHeight in *.
  rewrite Hs, Hg, Hcw, Hch.
  split; [exact Fw|]. split; [exact Fh|].
  intros ctx' Hctx p.
  destruct (Canvas2D.context2d (Visualization.canvas w)) as [ctx|] eqn:Ew.
  - rewrite (render_context w ctx Ew) in Hctx. simpl in Hctx.
    injection Hctx as <-. rewrite paintFrame_transform.
    apply viewTransform_apply.
  - rewrite (render_no_context w Ew) in Hctx. simpl in Hctx.
    subst w. simpl in Ew. congruence.
Qed.

(** C4, amended: the fit factor is always a finite number (no division
    by zero occurs); it is 1 when the canvas width or height is 0; for a
    zero-size bounding box, as of the empty graph, on a canvas of
    positive size it is the least of 1, width / 120 and height / 120,
    hence 1 exactly when the canvas is at least 120 by 120.
    [Graph.zoomByType(FIT)] always sets the zoom level to 1. *)
Theorem C4_fit_degenerate_inputs (v : Viz) (g : Graph.Component) :
  (exists k,
     fitScale v = Some k
     /\ (Canvas2D.width (Visualization.canvas v) = 0%N
         \/ Canvas2D.height (Visualization.canvas v) = 0%N -> k = 1)
     /\ (Model.boxWidth (getBoundingBox (Visualization.graph v)) == 0 ->
         Model.boxHeight (getBoundingBox (Visualization.graph v)) == 0 ->
         0 < canvasWidth v -> 0 < canvasHeight v ->
         k == Qmin 1 (Qmin (canvasWidth v / 120) (canvasHeight v / 120))))
  /\ Graph.zoomLevel (Graph.state (Graph.zoomByType FIT g)) = 1.
Proof.
  split; [|reflexivity].
  destruct (fit_total v) as (k & E & Hk0 & Hk1).
  exists k. split; [exact E|]. split.
  - intros H0. rewrite (fit_zero_canvas v H0) in E. congruence.
  - intros Bw Bh Hcw Hch.
    assert (Hw : (0 < Canvas2D.width (Visualization.canvas v))%N).
    { destruct (N.eq_0_gt_0_cases (Canvas2D.width (Visualization.canvas v)))
        as [C|C]; [|exact C].
      unfold Visualization.canvasWidth in Hcw. rewrite C in Hcw.
      now apply Qlt_irrefl in Hcw. }
    assert (Hh : (0 < Canvas2D.height (Visualization.canvas v))%N).
    { destruct (N.eq_0_gt_0_cases (Canvas2D.height (Visualization.canvas v)))
        as [C|C]; [|exact C].
      unfold Visualization.canvasHeight in Hch. rewrite C in Hch.
      now apply Qlt_irrefl in Hch. }
    destruct (fit_positive_canvas v Hw Hh)
      as (wr & hr & E' & (Hw0 & Hw1 & Hwfit & Hwmul)
          & (Hh0 & Hh1 & Hhfit & Hhmul)).
    rewrite E in E'. injection E' as ->.
    assert (Gw : graphWidth v == 120)
      by (unfold Visualization.graphWidth; rewrite Bw; reflexivity).
    assert (Gh : graphHeight v == 120)
      by (unfold Visualization.graphHeight; rewrite Bh; reflexivity).
    assert (Ew : wr == Qmin 1 (canvasWidth v / 120)).
    { destruct (Qlt_le_dec (canvasWidth v) (graphWidth v)) as [Hgt | Hle].
      - specialize (Hwmul Hgt). rewrite Gw in Hwmul, Hgt.
        rewrite Q.min_r by (apply Qle_shift_div_r; lra).
        apply Qeq_sym. rewrite <- Hwmul. field.
      - rewrite (Hwfit Hle). rewrite Gw in Hle.
        rewrite Q.min_l by (apply Qle_shift_div_l; lra). reflexivity. }
    assert (Eh : hr == Qmin 1 (canvasHeight v / 120)).
    { destruct (Qlt_le_dec (canvasHeight v) (graphHeight v)) as [Hgt | Hle].
      - specialize (Hhmul Hgt). rewrite Gh in Hhmul, Hgt.
        rewrite Q.min_r by (apply Qle_shift_div_r; lra).
        apply Qeq_sym. rewrite <- Hhmul. field.
      - rewrite (Hhfit Hle). rewrite Gh in Hle.
        rewrite Q.min_l by (apply Qle_shift_div_l; lra). reflexivity. }
    rewrite Ew, Eh.
    rewrite <- Q.min_assoc.
    rewrite (Q.min_assoc (canvasWidth v / 120)).
    rewrite (Q.min_comm (canvasWidth v / 120) 1).
    rewrite <- (Q.min_assoc 1 (canvasWidth v / 120)).
    rewrite Q.min_assoc. rewrite Q.min_id. reflexivity.
Qed.

(** *** Sequences of zoom requests *)

(** Zoom-in and zoom-out requests leave the scale as it is, and a fit
    request sets it to the fit factor, a number in (0, 1]: whatever the
    requests, a positive scale stays positive and stays below any upper
    bound that is at least 1. *)
Lemma zoomSequence_scale (ops : list ZoomType) (v : Viz) (maxScale : Q) :
  1 <= maxScale ->
  0 < Visualization.scale v -> Visualization.scale v <= maxScale ->
  exists v',
    zoomSequence ops v = Some v'
    /\ 0 < Visualization.scale v' /\ Visualization.scale v' <= maxScale.
Proof.
  intros Hmax. revert v. induction ops as [|op ops IH]; intros v H0 H1.
  - exists v. simpl. auto.
  - cbn [Visualization.zoomSequence].
    destruct op.
    + rewrite zoomByType_in_out by discriminate. simpl. now apply IH.
    + rewrite zoomByType_in_out by discriminate. simpl. now apply IH.
    + destruct (fit_total v) as (k & E & Hk0 & Hk1).
      destruct (zoomByType_fit_result v k E) as (v' & log & Ez & Hs & _).
      rewrite Ez. simpl. apply IH; rewrite Hs; [assumption | lra].
Qed.

(** *** The painted frame *)

Lemma render_paints_frame (v : Viz) (ctx : Canvas2D.Context) :
  Canvas2D.context2d (Visualization.canvas v) = Some ctx ->
  exists ctx',
    Canvas2D.context2d (Visualization.canvas (render v).1) = Some ctx'
    /\ (exists corner w h,
          Canvas2D.painted ctx'
          = Canvas2D.painted ctx
            ++ Canvas2D.Cleared corner w h
               :: flat_map
                    (fun n => Canvas2D.discPaints (Canvas2D.transform ctx')
                                (Canvas2D.CaptionText "Node")
                                (Model.x n) (Model.y n) 50)
                    (Model.nodes (Visualization.graph v))
          /\ fst corner == 0 /\ snd corner == 0
          /\ w == canvasWidth v /\ h == canvasHeight v)
    /\ forall p,
         fst (Canvas2D.apply (Canvas2D.transform ctx') p)
         == canvasWidth v / 2 + Visualization.scale v * fst p
         /\ snd (Canvas2D.apply (Canvas2D.transform ctx') p)
            == canvasHeight v / 2 + Visualization.scale v * snd p.
Proof.
  intros E. rewrite (render_context v ctx E). simpl.
  eexists. split; [reflexivity|]. split.
  - exists (Canvas2D.apply Canvas2D.identity (0, 0)),
      (1 * canvasWidth v), (1 * canvasHeight v).
    rewrite paintFrame_painted, paintFrame_transform.
    split; [reflexivity|].
    unfold Canvas2D.apply, Canvas2D.identity. simpl.
    repeat split; ring.
  - intros p. rewrite paintFrame_transform. apply viewTransform_apply.
Qed.

(** C5, amended: on every [Visualization.render] with a 2D context at
    hand, the surface is cleared over the whole canvas and then one disc
    per node is painted, in the order of [graph.nodes()] and nothing
    else, so no relationship geometry is painted; the discs are painted
    under the transform that first translates to the centre of the
    canvas and then applies the scale, sending each model point [p] to
    [(width / 2, height / 2) + scale * p].  [Graph.updateGraphCanvas]
    likewise clears and then paints one disc per node and nothing else,
    under a transform that only scales, sending [p] to
    [zoomLevel * p]. *)
Theorem C5_render_clears_then_paints_nodes
  (v : Viz) (ctx : Canvas2D.Context)
  (g : Graph.Component) (canvas : Canvas2D.Element)
  (gctx : Canvas2D.Context) :
  Canvas2D.context2d (Visualization.canvas v) = Some ctx ->
  Graph.canvasElement g = Some canvas ->
  Canvas2D.context2d canvas = Some gctx ->
  (exists ctx',
     Canvas2D.context2d (Visualization.canvas (render v).1) = Some ctx'
     /\ (exists corner w h,
           Canvas2D.painted ctx'
           = Canvas2D.painted ctx
             ++ Canvas2D.Cleared corner w h
                :: flat_map
                     (fun n => Canvas2D.discPaints (Canvas2D.transform ctx')
                                 (Canvas2D.CaptionText "Node")
                                 (Model.x n) (Model.y n) 50)
                     (Model.nodes (Visualization.graph v))
           /\ fst corner == 0 /\ snd corner == 0
           /\ w == canvasWidth v /\ h == canvasHeight v)
     /\ forall p,
          fst (Canvas2D.apply (Canvas2D.transform ctx') p)
          == canvasWidth v / 2 + Visualization.scale v * fst p
          /\ snd (Canvas2D.apply (Canvas2D.transform ctx') p)
             == canvasHeight v / 2 + Visualization.scale v * snd p)
  /\ (exists gctx' corner w h,
        Graph.canvasElement (Graph.updateGraphCanvas g).1
        = Some (Canvas2D.setContext gctx' canvas)
        /\ Canvas2D.painted gctx'
           = Canvas2D.painted gctx
             ++ Canvas2D.Cleared corner w h
                :: flat_map
                     (fun e => Canvas2D.discPaints
                                 (Canvas2D.transform gctx')
                                 (Graph.caption e.2)
                                 (Js.ofN e.1 * 100) 100 50)
                     (Graph.entries 0 (Graph.nodes (Graph.props g)))
        /\ (fst corner == 0 /\ snd corner == 0
            /\ w == Js.ofN (Canvas2D.width canvas)
            /\ h == Js.ofN (Canvas2D.height canvas))
        /\ forall p,
             fst (Canvas2D.apply (Canvas2D.transform gctx') p)
             == Graph.zoomLevel (Graph.state g) * fst p
             /\ snd (Canvas2D.apply (Canvas2D.transform gctx') p)
                == Graph.zoomLevel (Graph.state g) * snd p).
Proof.
  intros Hv Hc Hx. split; [exact (render_paints_frame v ctx Hv)|].
  destruct (updateGraphCanvas_paints g canvas gctx Hc Hx)
    as (gctx' & corner & w & h & E & _ & Hp & Hr & Ht).
  exists gctx', corner, w, h. auto.
Qed.

(** C8, amended: when the 2D context is unavailable, [render]
    recomputes the geometry through [onTick], reports the diagnostic
    "null ctx", and changes nothing else: graph, scale and canvas are as
    before and nothing is thrown.  [Graph.updateGraphCanvas] reports a
    diagnostic and leaves the component unchanged when the canvas or its
    context is unavailable.  [render] keeps no trace of the failure: the
    next call with a context at hand paints the whole frame. *)
Theorem C8_render_without_context
  (v : Viz) (g : Graph.Component) (ctx : Canvas2D.Context) :
  Canvas2D.context2d (Visualization.canvas v) = None ->
  (Graph.canvasElement g = None
   \/ exists e, Graph.canvasElement g = Some e
                /\ Canvas2D.context2d e = None) ->
  render v
  = (Visualization.setGeometry
       (onTick (Visualization.graph v) (Visualization.geometry v)) v,
     [Js.ConsoleError "null ctx"])
  /\ (exists msg, Graph.updateGraphCanvas g = (g, [Js.ConsoleError msg]))
  /\ let v1 := (render v).1 in
     let v2 :=
       Visualization.setCanvas
         (Canvas2D.setContext ctx (Visualization.canvas v1)) v1 in
     exists ctx' corner w h,
       Canvas2D.context2d (Visualization.canvas (render v2).1) = Some ctx'
       /\ (render v2).2 = []
       /\ Canvas2D.painted ctx'
          = Canvas2D.painted ctx
            ++ Canvas2D.Cleared corner w h
               :: flat_map
                    (fun n => Canvas2D.discPaints (Canvas2D.transform ctx')
                                (Canvas2D.CaptionText "Node")
                                (Model.x n) (Model.y n) 50)
                    (Model.nodes (Visualization.graph v)).
Proof.
  intros Hv Hg. split; [exact (render_no_context v Hv)|]. split.
  - unfold Graph.updateGraphCanvas.
    destruct Hg as [-> | (e & -> & ->)]; eauto.
  - rewrite (render_no_context v Hv). cbn zeta. cbn [fst].
    set (v2 := Visualization.setCanvas _ _).
    assert (E : Canvas2D.context2d (Visualization.canvas v2) = Some ctx)
      by reflexivity.
    destruct (render_paints_frame v2 ctx E)
      as (ctx' & Hctx' & (corner & w & h & Hp & _) & _).
    exists ctx', corner, w, h. split; [exact Hctx'|]. split.
    + now rewrite (render_context v2 ctx E).
    + exact Hp.
Qed.

End FitAndRender.

(** ** Zoom buttons of the [Graph] component *)

Lemma graph_zoom_in (g : Graph.Component) :
  Graph.zoomLevel (Graph.state (Graph.zoomByType IN g))
  = Graph.zoomLevel (Graph.state g) + (3 # 10).
Proof. reflexivity. Qed.

Lemma graph_zoom_out (g : Graph.Component) :
  Graph.zoomLevel (Graph.state (Graph.zoomByType OUT g))
  = Graph.zoomLevel (Graph.state g) - (3 # 10).
Proof. reflexivity. Qed.

Lemma graph_zoom_repeat (op : ZoomType) (step : Q) (n : nat) :
  (forall g, Graph.zoomLevel (Graph.state (Graph.zoomByType op g))
             = Graph.zoomLevel (Graph.state g) + step) ->
  forall g,
    Graph.zoomLevel (Graph.state (Graph.zoomSequence (repeat op n) g))
    == Graph.zoomLevel (Graph.state g) + inject_Z (Z.of_nat n) * step.
Proof.
  intros Hstep. unfold Graph.zoomSequence.
  induction n as [|n IH]; intros g.
  - simpl. ring.
  - cbn [repeat fold_left]. rewrite IH, Hstep.
    rewrite Nat2Z.inj_succ. unfold Z.succ. rewrite inject_Z_plus. ring.
Qed.

(** C1, amended: [Graph.zoomByType(IN)] sets the zoom level to the
    current one plus 0.3 and [Graph.zoomByType(OUT)] to the current one
    minus 0.3, with no clamping, so a zoom-in always raises the level;
    [Visualization.zoomByType] leaves the scale as it is for both IN and
    OUT. *)
Theorem C1_zoom_steps_add_a_constant
  {Geometry Callback : Type}
  (onTick : Model.GraphModel -> Geometry -> Geometry)
  (getBoundingBox : Model.GraphModel -> Model.BoundingBox)
  (g : Graph.Component) (v : Visualization.Visualization Geometry Callback) :
  Graph.zoomLevel (Graph.state (Graph.zoomByType IN g))
  = Graph.zoomLevel (Graph.state g) + (3 # 10)
  /\ Graph.zoomLevel (Graph.state (Graph.zoomByType OUT g))
     = Graph.zoomLevel (Graph.state g) - (3 # 10)
  /\ Graph.zoomLevel (Graph.state g)
     < Graph.zoomLevel (Graph.state (Graph.zoomByType IN g))
  /\ (exists v', Visualization.zoomByType onTick getBoundingBox IN v
                 = Some (v', [])
                 /\ Visualization.scale v' = Visualization.scale v)
  /\ (exists v', Visualization.zoomByType onTick getBoundingBox OUT v
                 = Some (v', [])
                 /\ Visualization.scale v' = Visualization.scale v).
Proof.
  split; [reflexivity|]. split; [reflexivity|]. split.
  - rewrite graph_zoom_in. lra.
  - split; eexists; (split; [reflexivity|reflexivity]).
Qed.

(** C2, amended: in the canvas [Visualization], after any sequence of
    IN, OUT and FIT requests that starts from a positive scale no larger
    than [maxScale], for any [maxScale] of at least 1, the scale is
    again positive and no larger than [maxScale], so it never becomes
    zero or negative; no lower bound other than 0 is kept.  In the
    [Graph] component the zoom level is not bounded: [n] zoom-in clicks
    add [n] times 0.3 and [n] zoom-out clicks subtract as much. *)
Theorem C2_scale_after_zoom_sequences
  {Geometry Callback : Type}
  (onTick : Model.GraphModel -> Geometry -> Geometry)
  (getBoundingBox : Model.GraphModel -> Model.BoundingBox)
  (ops : list ZoomType)
  (v : Visualization.Visualization Geometry Callback) (maxScale : Q)
  (g : Graph.Component) (n : nat) :
  1 <= maxScale ->
  0 < Visualization.scale v -> Visualization.scale v <= maxScale ->
  (exists v',
     Visualization.zoomSequence onTick getBoundingBox ops v = Some v'
     /\ 0 < Visualization.scale v' /\ Visualization.scale v' <= maxScale)
  /\ Graph.zoomLevel (Graph.state (Graph.zoomSequence (repeat IN n) g))
     == Graph.zoomLevel (Graph.state g) + inject_Z (Z.of_nat n) * (3 # 10)
  /\ Graph.zoomLevel (Graph.state (Graph.zoomSequence (repeat OUT n) g))
     == Graph.zoomLevel (Graph.state g) - inject_Z (Z.of_nat n) * (3 # 10).
Proof.
  intros Hmax H0 H1. split; [now apply zoomSequence_scale|]. split.
  - apply graph_zoom_repeat. exact graph_zoom_in.
  - rewrite (graph_zoom_repeat OUT (- (3 # 10))).
    + ring.
    + intros g'. rewrite graph_zoom_out. reflexivity.
Qed.

(** C7, amended: for every starting zoom level, [zoomByType(IN)]
    followed by [zoomByType(OUT)] returns to the starting level (exactly,
    in exact arithmetic) and leaves the rest of the component as it was;
    no clamp is applied, so this also holds when the zoom-in step passes
    a bound. *)
Theorem C7_zoom_in_then_out_returns
  (g : Graph.Component) :
  let g' := Graph.zoomByType OUT (Graph.zoomByType IN g) in
  Graph.zoomLevel (Graph.state g') == Graph.zoomLevel (Graph.state g)
  /\ Graph.displayingWheelZoomInfoMessage (Graph.state g')
     = Graph.displayingWheelZoomInfoMessage (Graph.state g)
  /\ Graph.zoomInLimitReached (Graph.state g')
     = Graph.zoomInLimitReached (Graph.state g)
  /\ Graph.zoomOutLimitReached (Graph.state g')
     = Graph.zoomOutLimitReached (Graph.state g)
  /\ Graph.props g' = Graph.props g
  /\ Graph.canvasElement g' = Graph.canvasElement g.
Proof.
  cbv zeta. rewrite graph_zoom_out, graph_zoom_in.
  split; [ring|]. repeat split.
Qed.

(** ** Wheel events under the modifier-key policy *)

Section WheelPolicy.

Variable zoomed : ZoomBehavior.SourceEvent -> Q -> Q.

Lemma filter_plain_wheel (flag : option bool) (e : ZoomBehavior.SourceEvent) :
  Js.truthy flag = true -> ZoomBehavior.plainWheel e ->
  ZoomBehavior.filter flag e = (false, true).
Proof.
  intros Hflag (Ht & Hm & Hc & Hs). unfold ZoomBehavior.filter.
  rewrite Ht, Hm, Hc, Hs, Hflag. reflexivity.
Qed.

(** Once the host has handled the signal, handling it again changes
    nothing. *)
Lemma handleDisplay_idempotent (g : Graph.Component) :
  Graph.handleDisplayZoomWheelInfoMessage
    (Graph.handleDisplayZoomWheelInfoMessage g)
  = Graph.handleDisplayZoomWheelInfoMessage g.
Proof.
  unfold Graph.handleDisplayZoomWheelInfoMessage.
  destruct (Graph.displayingWheelZoomInfoMessage (Graph.state g)) eqn:D,
    (Js.truthy (Graph.wheelZoomRequiresModKey (Graph.props g))) eqn:R,
    (Js.truthy (Graph.wheelZoomInfoMessageEnabled (Graph.props g))) eqn:M;
    simpl; rewrite ?D, ?R, ?M; reflexivity.
Qed.

Lemma dispatch_plain_wheel (flag : option bool)
  (e : ZoomBehavior.SourceEvent) (host : Graph.Component) (k : Q) :
  Js.truthy flag = true -> ZoomBehavior.plainWheel e ->
  ZoomBehavior.dispatch zoomed flag e (host, k)
  = (Graph.handleDisplayZoomWheelInfoMessage host, k).
Proof.
  intros Hflag He. unfold ZoomBehavior.dispatch.
  now rewrite (filter_plain_wheel flag e Hflag He).
Qed.

Lemma dispatchAll_plain_wheel (flag : option bool)
  (es : list ZoomBehavior.SourceEvent) (host : Graph.Component) (k : Q) :
  Js.truthy flag = true -> Forall ZoomBehavior.plainWheel es ->
  ZoomBehavior.dispatchAll zoomed flag es (host, k)
  = (match es with
     | [] => host
     | _ :: _ => Graph.handleDisplayZoomWheelInfoMessage host
     end, k).
Proof.
  intros Hflag Hes. unfold ZoomBehavior.dispatchAll.
  revert host. induction Hes as [|e es He Hes IH]; intros host.
  - reflexivity.
  - cbn [fold_left]. rewrite (dispatch_plain_wheel flag e host k Hflag He).
    rewrite IH. destruct es; [reflexivity|].
    now rewrite handleDisplay_idempotent.
Qed.

Lemma signals_plain_wheel (flag : option bool)
  (es : list ZoomBehavior.SourceEvent) :
  Js.truthy flag = true -> Forall ZoomBehavior.plainWheel es ->
  ZoomBehavior.signals flag es = length es.
Proof.
  intros Hflag Hes. unfold ZoomBehavior.signals.
  induction Hes as [|e es He Hes IH]; [reflexivity|].
  cbn [List.filter]. rewrite (filter_plain_wheel flag e Hflag He).
  cbn [snd length]. now rewrite IH.
Qed.


End WheelPolicy.

(** ** The callback registry *)

Section Registry.

Context {Geometry Callback Args : Type}.

Local Notation "'Viz'" := (Visualization.Visualization Geometry Callback).

Local Notation "'held'" := Visualization.held.

Lemma on_plain_name (event : string) (callback : Callback) (v : Viz) :
  Js.inherited event = false ->
  exists v',
    Visualization.on event callback v = Js.Normal v'
    /\ Visualization.callbacks v'
       = <[event := held v event ++ [callback]]> (Visualization.callbacks v).
Proof.
  intros Hn. unfold Visualization.on, Js.get, Visualization.held.
  destruct (Visualization.callbacks v !! event) as [l|]; simpl.
  - eexists. split; reflexivity.
  - rewrite Hn. eexists. split; reflexivity.
Qed.

Lemma trigger_plain_name (event : string) (args : Args) (v : Viz) :
  Js.inherited event = false ->
  Visualization.trigger event args v
  = Js.Normal (map (fun callback => (callback, args)) (held v event)).
Proof.
  intros Hn. unfold Visualization.trigger, Js.get, Visualization.held.
  destruct (Visualization.callbacks v !! event) as [l|]; simpl.
  - reflexivity.
  - now rewrite Hn.
Qed.

(** For event names that are not members of [Object.prototype], a
    series of [on] calls succeeds and appends, for each name, the
    callbacks registered for it in registration order. *)
Lemma onAll_plain_names (regs : list (string * Callback)) (v : Viz) :
  Forall (fun r => Js.inherited r.1 = false) regs ->
  exists v',
    Visualization.onAll regs v = Js.Normal v'
    /\ forall event,
         held v' event
         = held v event ++ Visualization.registeredFor event regs.
Proof.
  intros Hregs. revert v.
  induction Hregs as [|[e cb] regs He Hregs IH]; intros v.
  - exists v. split; [reflexivity|]. intros event.
    unfold Visualization.registeredFor. simpl. now rewrite app_nil_r.
  - destruct (on_plain_name e cb v He) as (v1 & E1 & C1).
    destruct (IH v1) as (v' & E' & H').
    exists v'. cbn [Visualization.onAll]. rewrite E1.
    split; [exact E'|]. intros event. rewrite H'.
    unfold Visualization.registeredFor. cbn [List.filter fst].
    unfold Visualization.held at 1. rewrite C1.
    destruct (String.eqb_spec e event) as [-> | Hne].
    + rewrite lookup_insert_eq. cbn. now rewrite <- app_assoc.
    + rewrite lookup_insert_ne by exact Hne. reflexivity.
Qed.

(** For such names, [trigger] calls exactly the callbacks registered for
    the event, in registration order, each with the arguments given;
    registrations for other names play no part, and a name with no
    registration yields no call. *)
Lemma trigger_after_onAll (regs : list (string * Callback)) (v : Viz)
  (event : string) (args : Args) :
  Visualization.callbacks v = ∅ ->
  Forall (fun r => Js.inherited r.1 = false) regs ->
  Js.inherited event = false ->
  exists v',
    Visualization.onAll regs v = Js.Normal v'
    /\ Visualization.trigger event args v'
       = Js.Normal (map (fun callback => (callback, args))
                        (Visualization.registeredFor event regs)).
Proof.
  intros Hempty Hregs He.
  destruct (onAll_plain_names regs v Hregs) as (v' & E & H).
  exists v'. split; [exact E|].
  rewrite (trigger_plain_name event args v' He), H.
  unfold Visualization.held. rewrite Hempty, lookup_empty. reflexivity.
Qed.

(** A registration for one event name leaves the calls made for every
    other name as they were. *)
Lemma on_other_event (event other : string) (callback : Callback)
  (args : Args) (v v' : Viz) :
  Visualization.on event callback v = Js.Normal v' ->
  other <> event ->
  Visualization.trigger other args v' = Visualization.trigger other args v.
Proof.
  intros Hon Hne. unfold Visualization.on in Hon.
  unfold Visualization.trigger, Js.get.
  destruct (Js.get (Visualization.callbacks v) event) as [l| |];
    [injection Hon as <- | discriminate Hon | injection Hon as <-];
    cbn [Visualization.callbacks Visualization.setCallbacks];
    rewrite lookup_insert_ne by congruence; reflexivity.
Qed.

(** For a member name of [Object.prototype] that has no own entry,
    both [on] and [trigger] throw. *)
Lemma inherited_name_throws (event : string) (callback : Callback)
  (args : Args) (v : Viz) :
  Js.inherited event = true ->
  Visualization.callbacks v !! event = None ->
  Visualization.on event callback v = Js.TypeError
  /\ Visualization.trigger event args v = Js.TypeError.
Proof.
  intros Hi Hn. unfold Visualization.on, Visualization.trigger, Js.get.
  rewrite Hn, Hi. split; reflexivity.
Qed.

End Registry.

(** ** The claims at concrete inputs *)

(** C1 fails as stated: from zoom level 2, a zoom-in gives 2.3, whereas
    2 times 1.3 clamped to the interval from 0.1 to 2 is 2; and for no
    bounds and no factor is the zoom-in step a clamped product, since at
    the upper bound it yields more than the bound. *)
Lemma C1_counterexample_zoom_in_adds :
  (Graph.zoomLevel (Graph.state (Graph.zoomByType IN (Scenario.componentAt 2)))
   == 23 # 10
   /\ Described.zoomStep (1 # 10) 2 (13 # 10) 2 == 2)
  /\ ~ (exists minScale maxScale factor,
          minScale <= maxScale
          /\ forall g,
               minScale <= Graph.zoomLevel (Graph.state g) <= maxScale ->
               Graph.zoomLevel (Graph.state (Graph.zoomByType IN g))
               == Described.zoomStep minScale maxScale factor
                    (Graph.zoomLevel (Graph.state g))).
Proof.
  split; [split; reflexivity|].
  intros (lo & hi & k & Hle & H).
  specialize (H (Scenario.componentAt hi)).
  rewrite graph_zoom_in in H.
  change (Graph.zoomLevel (Graph.state (Scenario.componentAt hi)))
    with hi in H.
  assert (Hc : Described.zoomStep lo hi k hi <= hi).
  { unfold Described.zoomStep, Described.clamp.
    apply Q.max_lub; [exact Hle | apply Q.le_min_l]. }
  assert (E : hi + (3 # 10) == Described.zoomStep lo hi k hi)
    by (apply H; lra).
  lra.
Qed.

(** C2 fails as stated: four zoom-out clicks from the initial zoom level
    1 give -0.2; a fit of a wide graph on a canvas of 100 by 100 gives a
    scale below 0.1; and no bounds at all are kept by the zoom buttons,
    since a zoom-in at the upper bound passes it. *)
Lemma C2_counterexample_scale_leaves_bounds :
  (Graph.zoomLevel
     (Graph.state
        (Graph.zoomSequence [OUT; OUT; OUT; OUT]
                            (Scenario.component [] None)))
   == - (1 # 5)
   /\ match Visualization.zoomSequence Model.deriveGeometry
              Model.boundingBox [FIT]
              (Scenario.visualization (1 # 10)
                 (Scenario.canvasElement 100 100) Scenario.wideGraph) with
      | Some v' => Visualization.scale v' < 1 # 10
      | None => False
      end)
  /\ ~ (exists minScale maxScale,
          minScale <= maxScale
          /\ forall ops g,
               minScale <= Graph.zoomLevel (Graph.state g) <= maxScale ->
               minScale
               <= Graph.zoomLevel (Graph.state (Graph.zoomSequence ops g))
               <= maxScale).
Proof.
  split; [split; reflexivity|].
  intros (lo & hi & Hle & H).
  specialize (H [IN] (Scenario.componentAt hi)).
  change (Graph.zoomLevel (Graph.state (Scenario.componentAt hi)))
    with hi in H.
  change (Graph.zoomLevel
            (Graph.state (Graph.zoomSequence [IN] (Scenario.componentAt hi))))
    with (hi + (3 # 10)) in H.
  lra.
Qed.

(** C3 fails as stated: for a single node at (1050, 1050) on a canvas of
    400 by 400 the fit sets scale 1 and the centre of the bounding box
    is painted at (1250, 1250), not at the centre (200, 200) of the
    viewport. *)
Lemma C3_counterexample_box_not_centred :
  match Visualization.zoomByType Model.deriveGeometry Model.boundingBox FIT
          (Scenario.visualization (1 # 10)
             (Scenario.canvasElement 400 400) Scenario.farGraph) with
  | Some (v', _) =>
      match Canvas2D.context2d (Visualization.canvas v') with
      | Some ctx' =>
          let box := Model.boundingBox (Visualization.graph v') in
          let boxCentre := (Model.boxX box + Model.boxWidth box / 2,
                            Model.boxY box + Model.boxHeight box / 2) in
          let painted := Canvas2D.apply (Canvas2D.transform ctx') boxCentre in
          Visualization.scale v' == 1
          /\ fst painted == 1250 /\ snd painted == 1250
          /\ ~ fst painted == Visualization.canvasWidth v' / 2
          /\ ~ snd painted == Visualization.canvasHeight v' / 2
      | None => False
      end
  | None => False
  end.
Proof.
  vm_compute. repeat split; try reflexivity; intros H; discriminate H.
Qed.

(** C4 fails as stated: for the empty graph, whose bounding box is the
    zero-size box at the origin, on a canvas of 100 by 100, the fit
    changes the scale from 1 to 100 / 120. *)
Lemma C4_counterexample_empty_graph_small_canvas :
  let v := Scenario.visualization (1 # 10)
             (Scenario.canvasElement 100 100) Scenario.emptyGraph in
  Model.nodes (Visualization.graph v) = []
  /\ Visualization.scale v = 1
  /\ Visualization.getZoomScaleFactorToFitWholeGraph Model.boundingBox v
     = Some (100 # 120)
  /\ match Visualization.zoomByType Model.deriveGeometry Model.boundingBox
             FIT v with
     | Some (v', _) =>
         Visualization.scale v' == 5 # 6 /\ ~ Visualization.scale v' == 1
     | None => False
     end.
Proof.
  vm_compute. repeat split; try reflexivity. intros H; discriminate H.
Qed.

(** C5 fails as stated: [Graph.updateGraphCanvas] on a canvas of 100 by
    100 at zoom level 1 paints its first node, placed at (0, 100), at
    (0, 100) and not at (50, 150), since it scales without translating
    to the centre; and [Visualization.render] paints a graph with a
    relationship exactly as it paints the same nodes without it: one
    clearing and three paints for each of the two nodes. *)
Lemma C5_counterexample_no_translation_no_relationships :
  (match (Graph.updateGraphCanvas
            (Scenario.component [Scenario.person]
               (Some (Scenario.canvasElement 100 100)))).1 with
   | {| Graph.canvasElement :=
          Some {| Canvas2D.context2d := Some ctx |} |} =>
       Scenario.firstDiscCentre (Canvas2D.painted ctx) = Some (0, 100)
   | _ => False
   end
   /\ ~ 0 == 100 / 2 + 1 * 0 /\ ~ 100 == 100 / 2 + 1 * 100)
  /\ (let paintedBy g :=
        match Canvas2D.context2d
                (Visualization.canvas
                   (Visualization.render Model.deriveGeometry
                      (Scenario.visualization (1 # 10)
                         (Scenario.canvasElement 100 100) g)).1) with
        | Some ctx => Canvas2D.painted ctx
        | None => []
        end in
      Model.relationships Scenario.twoNodesLinked <> []
      /\ paintedBy Scenario.twoNodesLinked = paintedBy Scenario.twoNodes
      /\ length (paintedBy Scenario.twoNodesLinked) = 7%nat).
Proof.
  split.
  - split; [vm_compute; reflexivity|].
    split; intros H; vm_compute in H; discriminate H.
  - cbv zeta. split; [discriminate|]. split; vm_compute; reflexivity.
Qed.

(** C7 fails as stated: from zoom level 1.9, strictly between 0.1 and 2,
    the zoom-in step passes the upper bound (2.2) and the zoom-out step
    returns 1.9, which is neither bound; and whatever the bounds, some
    level strictly inside them passes the upper bound on zoom-in and
    comes back to itself, not to a bound. *)
Lemma C7_counterexample_no_clamp_value :
  (let g := Scenario.componentAt (19 # 10) in
   2 < Graph.zoomLevel (Graph.state (Graph.zoomByType IN g))
   /\ Graph.zoomLevel
        (Graph.state (Graph.zoomByType OUT (Graph.zoomByType IN g)))
      == 19 # 10)
  /\ ~ (exists minScale maxScale,
          minScale < maxScale
          /\ forall g,
               minScale < Graph.zoomLevel (Graph.state g) < maxScale ->
               maxScale
               < Graph.zoomLevel (Graph.state (Graph.zoomByType IN g)) ->
               let back :=
                 Graph.zoomLevel
                   (Graph.state
                      (Graph.zoomByType OUT (Graph.zoomByType IN g))) in
               back == maxScale \/ back == minScale).
Proof.
  split; [split; reflexivity|].
  intros (lo & hi & Hlt & H).
  set (d := Qmin (3 # 20) ((hi - lo) / 2)).
  assert (Hd0 : 0 < d)
    by (apply Q.min_glb_lt; [reflexivity | apply Qlt_shift_div_l; lra]).
  assert (Hd1 : d <= 3 # 20) by apply Q.le_min_l.
  assert (Hd2 : d <= (hi - lo) / 2) by apply Q.le_min_r.
  assert (Hhalf : (hi - lo) / 2 < hi - lo)
    by (apply Qlt_shift_div_r; lra).
  specialize (H (Scenario.componentAt (hi - d))).
  cbv zeta in H. rewrite graph_zoom_out, graph_zoom_in in H.
  change (Graph.zoomLevel (Graph.state (Scenario.componentAt (hi - d))))
    with (hi - d) in H.
  destruct H as [E | E]; lra.
Qed.

(** C8 fails as stated: with no 2D context, [render] still recomputes
    the geometry, which here goes from the empty frame to the frame of
    the two nodes. *)
Lemma C8_counterexample_geometry_recomputed :
  let v := Scenario.visualization (1 # 10)
             (Scenario.canvasWithoutContext 100 100) Scenario.twoNodes in
  Canvas2D.context2d (Visualization.canvas v) = None
  /\ Visualization.geometry v = []
  /\ Visualization.geometry (Visualization.render Model.deriveGeometry v).1
     = [ ("a"%string, (0, 0), 50); ("b"%string, (200, 0), 50) ]
  /\ Visualization.geometry (Visualization.render Model.deriveGeometry v).1
     <> Visualization.geometry v.
Proof.
  cbv zeta. split; [reflexivity|]. split; [reflexivity|].
  split; [reflexivity|]. discriminate.
Qed.

(** C10: the registry is an object literal, so for an event name that
    [Object.prototype] defines, here "constructor" and "toString", the
    lookup yields an inherited member that is neither nullish nor an
    array: [trigger] on a registry with no registration throws a
    [TypeError] instead of doing nothing, and so does [on].  For a name
    such as "updated" the same [trigger] makes no call. *)
Theorem C10_trigger_inherited_name_throws :
  let v := Scenario.visualization (1 # 10)
             (Scenario.canvasElement 100 100) Scenario.emptyGraph in
  Visualization.callbacks v = ∅
  /\ Visualization.trigger "constructor" ([] : list Q) v = Js.TypeError
  /\ Visualization.on "toString" 7%nat v = Js.TypeError
  /\ Visualization.trigger "updated" ([] : list Q) v = Js.Normal [].
Proof. cbv zeta. repeat split. Qed.

(** ** The hypotheses hold at concrete inputs *)

Lemma C9_holds_on_canvas_400_by_300 :
  let v := Scenario.visualization (1 # 10)
             (Scenario.canvasElement 400 300) Scenario.twoNodes in
  (0 < Canvas2D.width (Visualization.canvas v))%N
  /\ (0 < Canvas2D.height (Visualization.canvas v))%N
  /\ exists k,
       Visualization.getZoomScaleFactorToFitWholeGraph Model.boundingBox v
       = Some k
       /\ 0 < k /\ k <= 1.
Proof.
  cbv zeta. split; [reflexivity|]. split; [reflexivity|].
  destruct (C9_fit_factor_in_unit_interval
              Model.deriveGeometry Model.boundingBox
              (Scenario.visualization (1 # 10)
                 (Scenario.canvasElement 400 300) Scenario.twoNodes))
    as (k & E & H0 & H1 & _); [reflexivity | reflexivity |].
  exists k. auto.
Defined.

Lemma C3_holds_on_canvas_400_by_300 :
  let v := Scenario.visualization (1 # 10)
             (Scenario.canvasElement 400 300) Scenario.twoNodes in
  (1 <= Canvas2D.width (Visualization.canvas v))%N
  /\ (1 <= Canvas2D.height (Visualization.canvas v))%N
  /\ exists v' log,
       Visualization.zoomByType Model.deriveGeometry Model.boundingBox FIT v
       = Some (v', log)
       /\ Visualization.scale v'
          * Visualization.graphWidth Model.boundingBox v'
          <= Visualization.canvasWidth v'
       /\ Visualization.scale v'
          * Visualization.graphHeight Model.boundingBox v'
          <= Visualization.canvasHeight v'.
Proof.
  cbv zeta. split; [discriminate|]. split; [discriminate|].
  destruct (C3_fit_scale_fits_viewport
              Model.deriveGeometry Model.boundingBox
              (Scenario.visualization (1 # 10)
                 (Scenario.canvasElement 400 300) Scenario.twoNodes))
    as (v' & log & E & Hw & Hh & _); [discriminate | discriminate |].
  exists v', log. auto.
Defined.

Lemma C2_holds_from_initial_scale :
  let v := Scenario.visualization (1 # 10)
             (Scenario.canvasElement 100 100) Scenario.wideGraph in
  1 <= 2
  /\ 0 < Visualization.scale v
  /\ Visualization.scale v <= 2
  /\ exists v',
       Visualization.zoomSequence Model.deriveGeometry Model.boundingBox
         [IN; FIT; OUT] v = Some v'
       /\ 0 < Visualization.scale v' /\ Visualization.scale v' <= 2.
Proof.
  cbv zeta. split; [discriminate|]. split; [reflexivity|].
  split; [discriminate|].
  destruct (C2_scale_after_zoom_sequences
              Model.deriveGeometry Model.boundingBox [IN; FIT; OUT]
              (Scenario.visualization (1 # 10)
                 (Scenario.canvasElement 100 100) Scenario.wideGraph) 2
              (Scenario.component [] None) 4)
    as [H _]; [discriminate | reflexivity | discriminate | exact H].
Defined.

Lemma C5_holds_with_fresh_context :
  let v := Scenario.visualization (1 # 10)
             (Scenario.canvasElement 400 300) Scenario.twoNodesLinked in
  let canvas := Scenario.canvasElement 100 100 in
  let g := Scenario.component [Scenario.person] (Some canvas) in
  Canvas2D.context2d (Visualization.canvas v) = Some Scenario.freshContext
  /\ Graph.canvasElement g = Some canvas
  /\ Canvas2D.context2d canvas = Some Scenario.freshContext
  /\ exists ctx',
       Canvas2D.context2d
         (Visualization.canvas (Visualization.render Model.deriveGeometry v).1)
       = Some ctx'
       /\ forall p,
            fst (Canvas2D.apply (Canvas2D.transform ctx') p)
            == Visualization.canvasWidth v / 2
               + Visualization.scale v * fst p
            /\ snd (Canvas2D.apply (Canvas2D.transform ctx') p)
               == Visualization.canvasHeight v / 2
                  + Visualization.scale v * snd p.
Proof.
  cbv zeta. split; [reflexivity|]. split; [reflexivity|].
  split; [reflexivity|].
  destruct (C5_render_clears_then_paints_nodes Model.deriveGeometry
              (Scenario.visualization (1 # 10)
                 (Scenario.canvasElement 400 300) Scenario.twoNodesLinked)
              Scenario.freshContext
              (Scenario.component [Scenario.person]
                 (Some (Scenario.canvasElement 100 100)))
              (Scenario.canvasElement 100 100) Scenario.freshContext
              eq_refl eq_refl eq_refl)
    as ((ctx' & E & _ & H) & _).
  exists ctx'. auto.
Defined.

Lemma C8_holds_without_context :
  let v := Scenario.visualization (1 # 10)
             (Scenario.canvasWithoutContext 400 300) Scenario.twoNodes in
  let g := Scenario.component [Scenario.person] None in
  Canvas2D.context2d (Visualization.canvas v) = None
  /\ Graph.canvasElement g = None
  /\ Visualization.render Model.deriveGeometry v
     = (Visualization.setGeometry
          (Model.deriveGeometry (Visualization.graph v)
             (Visualization.geometry v)) v,
        [Js.ConsoleError "null ctx"])
  /\ exists msg, Graph.updateGraphCanvas g = (g, [Js.ConsoleError msg]).
Proof.
  cbv zeta. split; [reflexivity|]. split; [reflexivity|].
  destruct (C8_render_without_context Model.deriveGeometry
              (Scenario.visualization (1 # 10)
                 (Scenario.canvasWithoutContext 400 300) Scenario.twoNodes)
              (Scenario.component [Scenario.person] None)
              Scenario.freshContext eq_refl (or_introl eq_refl))
    as (Hr & Hg & _).
  split; [exact Hr | exact Hg].
Defined.


(** * Further properties of the code *)

(** ** The zoom behavior of the d3-zoom [Visualization] *)

(** X1: the wheel filter rejects an event exactly when it is a wheel
    event, the modifier-key policy is on and none of the meta, ctrl and
    shift keys is held; it signals the host exactly when it rejects.
    Every other event, and every wheel event with a modifier key, is
    accepted without a signal. *)
Theorem X1_filter_rejects_exactly_plain_wheel
  (flag : option bool) (e : ZoomBehavior.SourceEvent) :
  ((ZoomBehavior.filter flag e).1 = false
   <-> Js.truthy flag = true /\ ZoomBehavior.plainWheel e)
  /\ (ZoomBehavior.filter flag e).2 = negb (ZoomBehavior.filter flag e).1.
Proof.
  unfold ZoomBehavior.filter, ZoomBehavior.plainWheel.
  destruct (String.eqb_spec (ZoomBehavior.type e) "wheel") as [Ht | Ht].
  - destruct (Js.truthy flag), (ZoomBehavior.metaKey e),
      (ZoomBehavior.ctrlKey e), (ZoomBehavior.shiftKey e); simpl;
      (split; [split; [intros H; try discriminate H; auto
                      | intros (? & ? & ? & ? & ?);
                        try discriminate; reflexivity]
              | reflexivity]).
  - split; [|reflexivity]. simpl. split; [discriminate|].
    intros (_ & Hw & _). contradiction.
Qed.

(** X2: the wheel delta is minus [deltaY] times a positive factor that
    depends on [deltaMode] only (0.002 for pixels, 0.05 for lines, 1
    otherwise): it is zero exactly when [deltaY] is, has the opposite
    sign otherwise, and its square never exceeds that of [deltaY]. *)
Theorem X2_wheelDelta_opposes_deltaY (e : D3Visualization.WheelEvent) :
  exists factor,
    D3Visualization.wheelDelta e == - D3Visualization.deltaY e * factor
    /\ 0 < factor /\ factor <= 1
    /\ (D3Visualization.wheelDelta e == 0
        <-> D3Visualization.deltaY e == 0)
    /\ (0 < D3Visualization.deltaY e <-> D3Visualization.wheelDelta e < 0)
    /\ D3Visualization.wheelDelta e * D3Visualization.wheelDelta e
       <= D3Visualization.deltaY e * D3Visualization.deltaY e.
Proof.
  unfold D3Visualization.wheelDelta.
  set (f := if (D3Visualization.deltaMode e =? 1)%N then 5 # 100
            else if negb (D3Visualization.deltaMode e =? 0)%N then 1
                 else 2 # 1000).
  assert (Hf : 0 < f /\ f <= 1).
  { subst f. destruct (D3Visualization.deltaMode e =? 1)%N;
      [|destruct (negb (D3Visualization.deltaMode e =? 0)%N)];
      split; reflexivity || discriminate. }
  destruct Hf as [Hf0 Hf1].
  exists f. split; [reflexivity|]. split; [exact Hf0|].
  split; [exact Hf1|].
  set (d := D3Visualization.deltaY e).
  split; [|split].
  - split; intros H.
    + destruct (Qeq_dec d 0) as [E|E]; [exact E|]. exfalso.
      destruct (Q_dec d 0) as [[Hlt | Hgt] | Heq]; [| |contradiction]; nra.
    + rewrite H. ring.
  - split; intros H; [nra|].
    destruct (Qlt_le_dec 0 d) as [Hpos | Hneg]; [exact Hpos|]. nra.
  - assert (Hdd : 0 <= d * d) by nra.
    assert (Hff : f * f <= 1) by nra.
    assert (E : - d * f * (- d * f) == d * d * (f * f)) by ring.
    rewrite E. clear E.
    generalize dependent (d * d). generalize dependent (f * f).
    intros b Hb a Ha. nra.
Qed.

(** Handling a report of limits makes the two flags of the component
    equal to the reported ones and changes nothing else. *)
Lemma handleZoomEvent_state (limitsReached : GraphHandlers.ZoomLimitsReached)
  (g : Graph.Component) :
  let g' := GraphHandlers.handleZoomEvent limitsReached g in
  Graph.zoomInLimitReached (Graph.state g')
  = GraphHandlers.zoomInLimitReached limitsReached
  /\ Graph.zoomOutLimitReached (Graph.state g')
     = GraphHandlers.zoomOutLimitReached limitsReached
  /\ Graph.zoomLevel (Graph.state g') = Graph.zoomLevel (Graph.state g)
  /\ Graph.displayingWheelZoomInfoMessage (Graph.state g')
     = Graph.displayingWheelZoomInfoMessage (Graph.state g)
  /\ Graph.props g' = Graph.props g
  /\ Graph.canvasElement g' = Graph.canvasElement g.
Proof.
  cbv zeta. unfold GraphHandlers.handleZoomEvent.
  destruct limitsReached as [a b]. cbn [GraphHandlers.zoomInLimitReached
    GraphHandlers.zoomOutLimitReached].
  destruct (Graph.zoomInLimitReached (Graph.state g)) eqn:Ea,
    (Graph.zoomOutLimitReached (Graph.state g)) eqn:Eb, a, b;
    simpl; rewrite ?Ea, ?Eb; repeat split.
Qed.

Section ZoomEvents.

Variable ZOOM_MAX_SCALE : Q.
Context {Geometry : Type}.

Local Notation "'D3'" := (D3Visualization.Visualization Geometry).

Lemma zoomEvents_preserve (scales : list Q) (v : D3) (host : Graph.Component) :
  let st := D3Visualization.zoomEvents ZOOM_MAX_SCALE scales (v, host) in
  D3Visualization.zoomMinScaleExtent st.1
  = D3Visualization.zoomMinScaleExtent v
  /\ D3Visualization.scaleExtent st.1 = D3Visualization.scaleExtent v
  /\ Graph.zoomLevel (Graph.state st.2) = Graph.zoomLevel (Graph.state host)
  /\ Graph.displayingWheelZoomInfoMessage (Graph.state st.2)
     = Graph.displayingWheelZoomInfoMessage (Graph.state host).
Proof.
  cbv zeta. unfold D3Visualization.zoomEvents.
  revert v host. induction scales as [|k scales IH]; intros v host.
  - simpl. auto.
  - cbn [fold_left]. unfold D3Visualization.zoomEvent at 2.
    cbn [fst snd D3Visualization.onZoom].
    match goal with
    | |- context [fold_left _ scales (?v1, ?h1)] =>
        destruct (IH v1 h1) as (H1 & H2 & H3 & H4)
    end.
    split; [exact H1|]. split; [exact H2|].
    split; [apply (eq_trans H3) | apply (eq_trans H4)].
    all: destruct (handleZoomEvent_state
                {| GraphHandlers.zoomInLimitReached :=
                     Qle_bool ZOOM_MAX_SCALE k;
                   GraphHandlers.zoomOutLimitReached :=
                     Qle_bool k (D3Visualization.zoomMinScaleExtent v) |}
                host) as (_ & _ & Hz & Hd & _); assumption.
Qed.


End ZoomEvents.

Section D3Fit.

Variable ZOOM_FIT_PADDING_PERCENT : Q.
Variable ZOOM_MAX_SCALE : Q.
Context {Geometry : Type}.

Local Notation "'D3'" := (D3Visualization.Visualization Geometry).
Local Notation "'fit'" :=
  (D3Visualization.getZoomScaleFactorToFitWholeGraph
     ZOOM_FIT_PADDING_PERCENT).
Local Notation "'adjust'" :=
  (D3Visualization.adjustZoomMinScaleExtentToFitGraph
     ZOOM_FIT_PADDING_PERCENT ZOOM_MAX_SCALE).

Lemma d3_fit_zero_canvas (v : D3) :
  Canvas2D.width (D3Visualization.canvas v) = 0%N
  \/ Canvas2D.height (D3Visualization.canvas v) = 0%N ->
  fit v = Some None.
Proof.
  intros H. unfold D3Visualization.getZoomScaleFactorToFitWholeGraph.
  rewrite !ofN_eqb_zero.
  destruct H as [-> | ->]; simpl; [reflexivity|].
  now rewrite orb_true_r.
Qed.

Lemma d3_fit_positive_canvas (v : D3) :
  (0 < Canvas2D.width (D3Visualization.canvas v))%N ->
  (0 < Canvas2D.height (D3Visualization.canvas v))%N ->
  let w := Js.ofN (Canvas2D.width (D3Visualization.canvas v)) in
  let h := Js.ofN (Canvas2D.height (D3Visualization.canvas v)) in
  fit v
  = Some (Some {| D3Visualization.scale :=
                    (1 - ZOOM_FIT_PADDING_PERCENT) / Qmax w h;
                  D3Visualization.centerPointOffset :=
                    (- (w / 2), - (h / 2)) |})
  /\ 0 < Qmax w h.
Proof.
  intros Hw Hh w h.
  assert (Hmax : 0 < Qmax w h).
  { apply Qlt_le_trans with w; [apply ofN_pos; exact Hw | apply Q.le_max_l]. }
  split; [|exact Hmax].
  unfold D3Visualization.getZoomScaleFactorToFitWholeGraph.
  rewrite !ofN_eqb_zero.
  destruct (N.eqb_spec (Canvas2D.width (D3Visualization.canvas v)) 0);
    [lia|].
  destruct (N.eqb_spec (Canvas2D.height (D3Visualization.canvas v)) 0);
    [lia|].
  simpl orb. cbv iota. fold w h.
  rewrite (div_positive _ _ Hmax). reflexivity.
Qed.

(** The fit of the d3-zoom version never divides by zero. *)
Lemma d3_fit_total (v : D3) : exists r, fit v = Some r.
Proof.
  destruct (N.eq_0_gt_0_cases (Canvas2D.width (D3Visualization.canvas v)))
    as [Hw | Hw].
  { eexists. apply d3_fit_zero_canvas. now left. }
  destruct (N.eq_0_gt_0_cases (Canvas2D.height (D3Visualization.canvas v)))
    as [Hh | Hh].
  { eexists. apply d3_fit_zero_canvas. now right. }
  eexists. apply (d3_fit_positive_canvas v Hw Hh).
Qed.

(** One adjustment: the smallest scale does not grow, a scale extent in
    line with it stays in line, and the fit scale times the padding
    factor is at or above the new smallest scale. *)
Lemma d3_adjust_step (padding_factor : Q) (v : D3) :
  exists v',
    adjust padding_factor v = Some v'
    /\ D3Visualization.zoomMinScaleExtent v'
       <= D3Visualization.zoomMinScaleExtent v
    /\ (D3Visualization.scaleExtent v
        = (D3Visualization.zoomMinScaleExtent v, ZOOM_MAX_SCALE) ->
        D3Visualization.scaleExtent v'
        = (D3Visualization.zoomMinScaleExtent v', ZOOM_MAX_SCALE))
    /\ (forall so, fit v = Some (Some so) ->
        D3Visualization.zoomMinScaleExtent v'
        <= D3Visualization.scale so * padding_factor)
    /\ (fit v = Some None ->
        D3Visualization.zoomMinScaleExtent v'
        = D3Visualization.zoomMinScaleExtent v)
    /\ D3Visualization.canvas v' = D3Visualization.canvas v
    /\ D3Visualization.graph v' = D3Visualization.graph v.
Proof.
  unfold D3Visualization.adjustZoomMinScaleExtentToFitGraph.
  destruct (d3_fit_total v) as (r & E). rewrite E. cbn [mbind option_bind].
  set (s := match r with
            | Some so => D3Visualization.scale so * padding_factor
            | None => D3Visualization.zoomMinScaleExtent v
            end).
  destruct (Qle_bool s (D3Visualization.zoomMinScaleExtent v)) eqn:Hle.
  - apply Qle_bool_iff in Hle. eexists. split; [reflexivity|].
    cbn [D3Visualization.zoomMinScaleExtent D3Visualization.scaleExtent
         D3Visualization.canvas D3Visualization.graph].
    split; [exact Hle|]. split; [reflexivity|]. split.
    + intros so Hso. injection Hso as ->. subst s. apply Qle_refl.
    + split; [|split; reflexivity].
      intros Hn. injection Hn as ->. reflexivity.
  - exists v. split; [reflexivity|]. split; [apply Qle_refl|].
    split; [tauto|]. split.
    + intros so Hso. injection Hso as ->. subst s.
      apply Qlt_le_weak. apply Qnot_le_lt. intros Hc.
      apply Qle_bool_iff in Hc. congruence.
    + repeat split.
Qed.

(** X4: whatever the padding factors and canvas sizes of a series of
    [adjustZoomMinScaleExtentToFitGraph] calls, none of them divides by
    zero, the smallest allowed scale never grows, and the scale extent
    of the zoom behavior, set by the constructor to the smallest and
    largest scale, still is the smallest scale together with
    [ZOOM_MAX_SCALE]. *)
Theorem X4_min_scale_extent_only_shrinks
  (calls : list (Q * (N * N))) (v : D3) :
  D3Visualization.scaleExtent v
  = (D3Visualization.zoomMinScaleExtent v, ZOOM_MAX_SCALE) ->
  exists v',
    D3Visualization.adjustAll ZOOM_FIT_PADDING_PERCENT ZOOM_MAX_SCALE
      calls v = Some v'
    /\ D3Visualization.zoomMinScaleExtent v'
       <= D3Visualization.zoomMinScaleExtent v
    /\ D3Visualization.scaleExtent v'
       = (D3Visualization.zoomMinScaleExtent v', ZOOM_MAX_SCALE).
Proof.
  revert v. induction calls as [|[p [w h]] calls IH]; intros v Hext.
  - exists v. split; [reflexivity|]. split; [apply Qle_refl | exact Hext].
  - cbn [D3Visualization.adjustAll].
    match goal with
    | |- context [adjust p ?sized] =>
        destruct (d3_adjust_step p sized) as (v1 & E & Hle & Hsync & _)
    end.
    rewrite E. cbn [mbind option_bind].
    cbn [D3Visualization.zoomMinScaleExtent D3Visualization.scaleExtent]
      in Hle, Hsync.
    destruct (IH v1 (Hsync Hext)) as (v' & E' & Hle' & Hsync').
    exists v'. split; [exact E'|]. split; [|exact Hsync'].
    apply Qle_trans with (D3Visualization.zoomMinScaleExtent v1);
      assumption.
Qed.

(** X5: in the d3-zoom version, [getZoomScaleFactorToFitWholeGraph]
    returns [undefined] when the canvas width or height is 0 and
    otherwise a scale and an offset: the scale times the larger canvas
    side is 1 minus the padding, so it is positive for a padding below
    1, and the offset is minus the canvas centre.  After
    [adjustZoomMinScaleExtentToFitGraph(p)] the smallest allowed scale
    is at most that scale times [p], and it is unchanged when the fit is
    [undefined]. *)
Theorem X5_d3_fit_scale_and_min_extent (padding_factor : Q) (v : D3) :
  let w := Js.ofN (Canvas2D.width (D3Visualization.canvas v)) in
  let h := Js.ofN (Canvas2D.height (D3Visualization.canvas v)) in
  exists v',
    adjust padding_factor v = Some v'
    /\ ((w == 0 \/ h == 0) ->
        fit v = Some None
        /\ D3Visualization.zoomMinScaleExtent v'
           = D3Visualization.zoomMinScaleExtent v)
    /\ (0 < w -> 0 < h ->
        exists so,
          fit v = Some (Some so)
          /\ D3Visualization.scale so * Qmax w h
             == 1 - ZOOM_FIT_PADDING_PERCENT
          /\ (ZOOM_FIT_PADDING_PERCENT < 1 -> 0 < D3Visualization.scale so)
          /\ fst (D3Visualization.centerPointOffset so) == - (w / 2)
          /\ snd (D3Visualization.centerPointOffset so) == - (h / 2)
          /\ D3Visualization.zoomMinScaleExtent v'
             <= D3Visualization.scale so * padding_factor).
Proof.
  intros w h.
  destruct (d3_adjust_step padding_factor v)
    as (v' & E & _ & _ & Hbound & Hnone & _).
  exists v'. split; [exact E|]. split.
  - intros H0.
    assert (Hz : Canvas2D.width (D3Visualization.canvas v) = 0%N
                 \/ Canvas2D.height (D3Visualization.canvas v) = 0%N).
    { destruct H0 as [H0 | H0]; [left | right];
        match goal with
        | |- ?n = 0%N =>
            destruct (N.eq_0_gt_0_cases n) as [C | C]; [exact C|];
            apply ofN_pos in C; subst w h; lra
        end. }
    split; [exact (d3_fit_zero_canvas v Hz)|].
    apply Hnone. exact (d3_fit_zero_canvas v Hz).
  - intros Hw Hh.
    assert (Hw' : (0 < Canvas2D.width (D3Visualization.canvas v))%N).
    { destruct (N.eq_0_gt_0_cases
                  (Canvas2D.width (D3Visualization.canvas v)))
        as [C | C]; [|exact C].
      subst w. rewrite C in Hw. now apply Qlt_irrefl in Hw. }
    assert (Hh' : (0 < Canvas2D.height (D3Visualization.canvas v))%N).
    { destruct (N.eq_0_gt_0_cases
                  (Canvas2D.height (D3Visualization.canvas v)))
        as [C | C]; [|exact C].
      subst h. rewrite C in Hh. now apply Qlt_irrefl in Hh. }
    destruct (d3_fit_positive_canvas v Hw' Hh') as [Efit Hmax].
    cbv zeta in Efit, Hmax. fold w h in Efit, Hmax.
    eexists. split; [exact Efit|].
    cbn [D3Visualization.scale D3Visualization.centerPointOffset fst snd].
    split; [field; lra|]. split.
    + intros Hp. apply Qlt_shift_div_l; lra.
    + split; [reflexivity|]. split; [reflexivity|].
      apply (Hbound _ Efit).
Qed.

End D3Fit.

(** ** The two versions of [render] *)

Lemma d3_drawNodes_transform (ns : list Model.NodeModel) (dx dy : Q) c :
  Canvas2D.transform
    (fold_left (fun c node => D3Visualization.drawNode c node dx dy) ns c)
  = Canvas2D.transform c.
Proof.
  revert c. induction ns as [|n ns IH]; intros c; simpl; [reflexivity|].
  rewrite IH. apply drawDisc_transform.
Qed.

Lemma d3_drawNodes_painted (ns : list Model.NodeModel) (dx dy : Q) c :
  Canvas2D.painted
    (fold_left (fun c node => D3Visualization.drawNode c node dx dy) ns c)
  = Canvas2D.painted c
    ++ flat_map (fun n => Canvas2D.discPaints (Canvas2D.transform c)
                            (Canvas2D.CaptionText "Node")
                            (Model.x n + dx) (Model.y n + dy) 50) ns.
Proof.
  revert c. induction ns as [|n ns IH]; intros c; simpl.
  - now rewrite app_nil_r.
  - rewrite IH. unfold D3Visualization.drawNode.
    rewrite drawDisc_painted, drawDisc_transform.
    now rewrite <- app_assoc.
Qed.

(** The disc painted by the canvas version at a scale equal to 1 and the
    disc painted by the d3-zoom version under the identity transform
    agree. *)
Lemma discPaints_agree (dx dy k x y r : Q) (label : Canvas2D.Caption) :
  k == 1 ->
  Forall2 Compare.samePaint
    (Canvas2D.discPaints Canvas2D.identity label (x + dx) (y + dy) r)
    (Canvas2D.discPaints (Canvas2D.viewTransform dx dy k) label x y r).
Proof.
  intros Hk.
  assert (Hp : Compare.samePoint
                 (Canvas2D.apply Canvas2D.identity (x + dx, y + dy))
                 (Canvas2D.apply (Canvas2D.viewTransform dx dy k) (x, y))).
  { unfold Compare.samePoint, Canvas2D.apply, Canvas2D.identity,
      Canvas2D.viewTransform. simpl. rewrite Hk. split; ring. }
  assert (Hr : 1 * r == 1 * k * r) by (rewrite Hk; ring).
  unfold Canvas2D.discPaints.
  assert (Hc : Compare.sameCircle
                 {| Canvas2D.centre :=
                      Canvas2D.apply Canvas2D.identity (x + dx, y + dy);
                    Canvas2D.radiusX := Canvas2D.sx Canvas2D.identity * r;
                    Canvas2D.radiusY := Canvas2D.sy Canvas2D.identity * r |}
                 {| Canvas2D.centre :=
                      Canvas2D.apply (Canvas2D.viewTransform dx dy k) (x, y);
                    Canvas2D.radiusX :=
                      Canvas2D.sx (Canvas2D.viewTransform dx dy k) * r;
                    Canvas2D.radiusY :=
                      Canvas2D.sy (Canvas2D.viewTransform dx dy k) * r |}).
  { split; [exact Hp|]. split; exact Hr. }
  constructor; [split; [reflexivity | constructor; [exact Hc | constructor]]|].
  constructor; [constructor; [exact Hc | constructor]|].
  constructor; [|constructor].
  repeat split; try reflexivity; try apply Hp. exact Hr.
Qed.

Section TwoVersions.

Context {Geometry Callback : Type}.
Variable onTick : Model.GraphModel -> Geometry -> Geometry.

(** X6: on a context whose transform is the identity, the earlier
    [render], which adds half the canvas size to every node position,
    and the canvas [render] at a scale equal to 1, which translates the
    context to the canvas centre, paint the same frame: the same
    clearing and, node by node, the same discs, outlines and captions at
    the same places. *)
Theorem X6_renders_agree_at_scale_one
  (v : Visualization.Visualization Geometry Callback)
  (d : D3Visualization.Visualization Geometry)
  (ctx : Canvas2D.Context) :
  Visualization.scale v == 1 ->
  D3Visualization.canvas d = Visualization.canvas v ->
  D3Visualization.graph d = Visualization.graph v ->
  Canvas2D.context2d (Visualization.canvas v) = Some ctx ->
  Canvas2D.transform ctx = Canvas2D.identity ->
  exists ctx1 ctx2 frame1 frame2,
    Canvas2D.context2d
      (D3Visualization.canvas (D3Visualization.render onTick d).1)
    = Some ctx1
    /\ Canvas2D.context2d
         (Visualization.canvas (Visualization.render onTick v).1)
       = Some ctx2
    /\ Canvas2D.painted ctx1 = Canvas2D.painted ctx ++ frame1
    /\ Canvas2D.painted ctx2 = Canvas2D.painted ctx ++ frame2
    /\ Forall2 Compare.samePaint frame1 frame2.
Proof.
  intros Hk Hc Hg Hctx Hid.
  unfold D3Visualization.render, Visualization.render.
  cbn [D3Visualization.canvas D3Visualization.graph
       Visualization.canvas Visualization.setGeometry
       Visualization.graph Visualization.scale].
  rewrite Hc, Hg, Hctx.
  cbn [fst D3Visualization.canvas Visualization.canvas
       Visualization.setCanvas Canvas2D.setContext Canvas2D.context2d].
  do 4 eexists. split; [reflexivity|]. split; [reflexivity|].
  rewrite d3_drawNodes_painted, paintFrame_painted.
  unfold Canvas2D.clearRect at 1 2.
  cbn [Canvas2D.painted Canvas2D.paint Canvas2D.transform].
  rewrite <- app_assoc. rewrite Hid.
  split; [reflexivity|]. split; [reflexivity|].
  cbn [app]. constructor.
  - simpl. unfold Compare.samePoint. repeat split; reflexivity.
  - induction (Model.nodes (Visualization.graph v)) as [|n ns IH];
      [constructor|].
    cbn [flat_map]. apply Forall2_app; [|exact IH].
    apply discPaints_agree. exact Hk.
Qed.


End TwoVersions.

(** ** The resize effect of the frame template *)

Lemma last_cons_default (h : N) (hs : list N) (d d' : N) :
  List.last (h :: hs) d = List.last (h :: hs) d'.
Proof.
  revert h. induction hs as [|k hs IH]; intros h; [reflexivity|].
  change (List.last (k :: hs) d = List.last (k :: hs) d'). apply IH.
Qed.

Lemma effect_cases (r : FrameTemplate.Run) (lastHeight : N) :
  FrameTemplate.effect r lastHeight = (lastHeight, [])
  \/ exists h,
       FrameTemplate.clientHeight r = Some h
       /\ (300 <= h)%N /\ lastHeight <> h
       /\ FrameTemplate.effect r lastHeight
          = (h, [ {| FrameTemplate.fullscreen := FrameTemplate.isFullscreen r;
                     FrameTemplate.collapsed := FrameTemplate.isCollapsed r;
                     FrameTemplate.height := h |} ]).
Proof.
  unfold FrameTemplate.effect.
  destruct (FrameTemplate.clientHeight r) as [h|]; [|now left].
  destruct (N.eqb_spec h 0); [now left|].
  destruct (N.ltb_spec h 300); [now left|].
  destruct (N.eqb_spec lastHeight h); [now left|].
  right. exists h. auto.
Qed.

(** X7: over any series of runs of the resize effect, every height
    passed to [onResize] is at least 300, no two calls in a row carry
    the same height and the first one differs from the height
    remembered at the start, and the height remembered at the end is
    that of the last call (the starting one if there was none).  A run
    that finds the remembered height again makes no call, whatever the
    fullscreen and collapsed flags. *)
Theorem X7_resize_reports_each_height_once
  (rs : list FrameTemplate.Run) (lastHeight : N) :
  let heights := map FrameTemplate.height
                     (FrameTemplate.effects rs lastHeight).2 in
  Forall (fun h => (300 <= h)%N) heights
  /\ FrameTemplate.distinctNeighbours lastHeight heights
  /\ (FrameTemplate.effects rs lastHeight).1 = List.last heights lastHeight
  /\ (forall r, FrameTemplate.clientHeight r = Some lastHeight ->
      FrameTemplate.effect r lastHeight = (lastHeight, [])).
Proof.
  cbv zeta. split; [|split; [|split]].
  - revert lastHeight. induction rs as [|r rs IH]; intros lastHeight.
    + constructor.
    + cbn [FrameTemplate.effects].
      destruct (effect_cases r lastHeight) as [-> | (h & _ & Hh & _ & ->)].
      * specialize (IH lastHeight).
        destruct (FrameTemplate.effects rs lastHeight). exact IH.
      * specialize (IH h). destruct (FrameTemplate.effects rs h).
        cbn. constructor; assumption.
  - revert lastHeight. induction rs as [|r rs IH]; intros lastHeight.
    + exact I.
    + cbn [FrameTemplate.effects].
      destruct (effect_cases r lastHeight) as [-> | (h & _ & _ & Hne & ->)].
      * specialize (IH lastHeight).
        destruct (FrameTemplate.effects rs lastHeight). exact IH.
      * specialize (IH h). destruct (FrameTemplate.effects rs h).
        cbn. split; assumption.
  - revert lastHeight. induction rs as [|r rs IH]; intros lastHeight.
    + reflexivity.
    + cbn [FrameTemplate.effects].
      destruct (effect_cases r lastHeight) as [-> | (h & _ & _ & _ & ->)].
      * specialize (IH lastHeight).
        destruct (FrameTemplate.effects rs lastHeight). exact IH.
      * specialize (IH h). destruct (FrameTemplate.effects rs h) as [h' cs].
        cbn [fst snd app map] in *. rewrite IH.
        destruct (map FrameTemplate.height cs) as [|k ks]; [reflexivity|].
        change (List.last (k :: ks) h = List.last (k :: ks) lastHeight).
        apply last_cons_default.
  - intros r Hr. unfold FrameTemplate.effect. rewrite Hr.
    destruct (lastHeight =? 0)%N; [reflexivity|].
    destruct (lastHeight <? 300)%N; [reflexivity|].
    now rewrite N.eqb_refl.
Qed.

(** ** Zoom buttons and redrawing of the [Graph] component *)

Lemma clickAndUpdate_state (button : ZoomType) (g : Graph.Component) :
  Graph.state (GraphHandlers.clickAndUpdate button g).1
  = Graph.state (Graph.zoomByType button g)
  /\ Graph.props (GraphHandlers.clickAndUpdate button g).1 = Graph.props g.
Proof.
  unfold GraphHandlers.clickAndUpdate, GraphHandlers.componentDidUpdate,
    GraphHandlers.zoomInClicked, GraphHandlers.zoomOutClicked,
    GraphHandlers.zoomToFitClicked, Graph.updateGraphCanvas.
  destruct button; cbn [Graph.zoomByType Graph.setState Graph.canvasElement];
    destruct (Graph.canvasElement g) as [c|]; try (split; reflexivity);
    destruct (Canvas2D.context2d c); split; reflexivity.
Qed.

(** The zoom level after a series of clicks with no fit among them. *)
Lemma clicks_without_fit (ops : list ZoomType) (g : Graph.Component) :
  GraphHandlers.occurrences FIT ops = 0%Z ->
  Graph.zoomLevel (Graph.state (GraphHandlers.clicksAndUpdates ops g))
  == Graph.zoomLevel (Graph.state g)
     + inject_Z (GraphHandlers.occurrences IN ops
                 - GraphHandlers.occurrences OUT ops) * (3 # 10).
Proof.
  unfold GraphHandlers.clicksAndUpdates, GraphHandlers.occurrences.
  revert g. induction ops as [|op ops IH]; intros g Hfit.
  - cbn [fold_left List.filter length].
    change (inject_Z (Z.of_nat 0 - Z.of_nat 0)) with 0. ring.
  - cbn [fold_left]. destruct op; cbn [List.filter length] in Hfit |- *;
      try lia.
    + rewrite IH by exact Hfit.
      destruct (clickAndUpdate_state IN g) as [-> _]. rewrite graph_zoom_in.
      rewrite !Nat2Z.inj_succ. unfold Z.succ, Z.sub.
      rewrite ?inject_Z_plus, ?inject_Z_opp, ?inject_Z_plus. ring.
    + rewrite IH by exact Hfit.
      destruct (clickAndUpdate_state OUT g) as [-> _]. rewrite graph_zoom_out.
      rewrite !Nat2Z.inj_succ. unfold Z.succ, Z.sub.
      rewrite ?inject_Z_plus, ?inject_Z_opp, ?inject_Z_plus. ring.
Qed.

(** X8: the zoom level after a series of zoom button clicks, each
    followed by the update of the component, is the starting level plus
    0.3 times the number of zoom-in clicks minus the number of zoom-out
    clicks when there is no fit click, in whatever order the clicks
    come; after a fit click, only the clicks that follow it count, from
    level 1. *)
Theorem X8_zoom_level_counts_clicks
  (before after : list ZoomType) (g : Graph.Component) :
  GraphHandlers.occurrences FIT after = 0%Z ->
  let net := inject_Z (GraphHandlers.occurrences IN after
                       - GraphHandlers.occurrences OUT after) in
  Graph.zoomLevel (Graph.state (GraphHandlers.clicksAndUpdates after g))
  == Graph.zoomLevel (Graph.state g) + net * (3 # 10)
  /\ Graph.zoomLevel
       (Graph.state
          (GraphHandlers.clicksAndUpdates (before ++ FIT :: after) g))
     == 1 + net * (3 # 10).
Proof.
  intros Hfit net. split; [now apply clicks_without_fit|].
  unfold GraphHandlers.clicksAndUpdates. rewrite fold_left_app.
  cbn [fold_left].
  match goal with
  | |- context [fold_left _ after ?g1] =>
      change (fold_left _ after g1)
        with (GraphHandlers.clicksAndUpdates after g1);
      rewrite (clicks_without_fit after g1 Hfit);
      destruct (clickAndUpdate_state FIT
                  (fold_left
                     (fun g button =>
                        (GraphHandlers.clickAndUpdate button g).1)
                     before g)) as [-> _]
  end.
  reflexivity.
Qed.

(** After an update the canvas of the component is the one it had, with
    a context whose transform scales by the zoom level. *)
Lemma clickAndUpdate_canvas (button : ZoomType) (g : Graph.Component)
  (canvas : Canvas2D.Element) (ctx : Canvas2D.Context) :
  Graph.canvasElement g = Some canvas ->
  Canvas2D.context2d canvas = Some ctx ->
  exists ctx',
    Graph.canvasElement (GraphHandlers.clickAndUpdate button g).1
    = Some (Canvas2D.setContext ctx' canvas)
    /\ forall p,
         fst (Canvas2D.apply (Canvas2D.transform ctx') p)
         == Graph.zoomLevel
              (Graph.state (GraphHandlers.clickAndUpdate button g).1)
            * fst p
         /\ snd (Canvas2D.apply (Canvas2D.transform ctx') p)
            == Graph.zoomLevel
                 (Graph.state (GraphHandlers.clickAndUpdate button g).1)
               * snd p.
Proof.
  intros Hc Hx.
  assert (Hc' : Graph.canvasElement (Graph.zoomByType button g)
                = Some canvas) by (destruct button; exact Hc).
  destruct (updateGraphCanvas_paints (Graph.zoomByType button g)
              canvas ctx Hc' Hx)
    as (ctx' & _ & _ & _ & E & Hs & _ & _ & Ht).
  exists ctx'.
  assert (Hsame : (GraphHandlers.clickAndUpdate button g).1
                  = (Graph.updateGraphCanvas
                       (Graph.zoomByType button g)).1).
  { unfold GraphHandlers.clickAndUpdate, GraphHandlers.componentDidUpdate,
      GraphHandlers.zoomInClicked, GraphHandlers.zoomOutClicked,
      GraphHandlers.zoomToFitClicked.
    destruct button; cbn [fst snd];
      destruct (Graph.updateGraphCanvas _); reflexivity. }
  rewrite Hsame, Hs. split; [exact E | exact Ht].
Qed.

(** X10: after any non-empty series of zoom button clicks, each followed
    by the update of the component, on a canvas with a 2D context, the
    context paints a point [p] at the current zoom level times [p]: the
    scale set by one redraw does not compound with that of the next, and
    the canvas keeps its size. *)
Theorem X10_redraws_do_not_compound_scale
  (buttons : list ZoomType) (last : ZoomType) (g : Graph.Component)
  (canvas : Canvas2D.Element) (ctx : Canvas2D.Context) :
  Graph.canvasElement g = Some canvas ->
  Canvas2D.context2d canvas = Some ctx ->
  let g' := GraphHandlers.clicksAndUpdates (buttons ++ [last]) g in
  exists canvas' ctx',
    Graph.canvasElement g' = Some canvas'
    /\ Canvas2D.context2d canvas' = Some ctx'
    /\ Canvas2D.width canvas' = Canvas2D.width canvas
    /\ Canvas2D.height canvas' = Canvas2D.height canvas
    /\ forall p,
         fst (Canvas2D.apply (Canvas2D.transform ctx') p)
         == Graph.zoomLevel (Graph.state g') * fst p
         /\ snd (Canvas2D.apply (Canvas2D.transform ctx') p)
            == Graph.zoomLevel (Graph.state g') * snd p.
Proof.
  intros Hc Hx. cbv zeta.
  unfold GraphHandlers.clicksAndUpdates. rewrite fold_left_app.
  cbn [fold_left].
  assert (Hinv : exists c x,
             Graph.canvasElement
               (fold_left
                  (fun g button => (GraphHandlers.clickAndUpdate button g).1)
                  buttons g) = Some c
             /\ Canvas2D.context2d c = Some x
             /\ Canvas2D.width c = Canvas2D.width canvas
             /\ Canvas2D.height c = Canvas2D.height canvas).
  { clear last. revert g canvas ctx Hc Hx.
    induction buttons as [|b bs IH]; intros g canvas ctx Hc Hx.
    - exists canvas, ctx. auto.
    - cbn [fold_left].
      destruct (clickAndUpdate_canvas b g canvas ctx Hc Hx)
        as (ctx1 & E1 & _).
      destruct (IH _ _ ctx1 E1 eq_refl) as (c & x & Ec & Ex & Hw & Hh).
      exists c, x. auto. }
  destruct Hinv as (c & x & Ec & Ex & Hw & Hh).
  destruct (clickAndUpdate_canvas last _ c x Ec Ex) as (ctx' & E' & Ht).
  exists (Canvas2D.setContext ctx' c), ctx'.
  split; [exact E'|]. split; [reflexivity|].
  split; [exact Hw|]. split; [exact Hh | exact Ht].
Qed.

(** ** More on the fit of the canvas [Visualization] *)

Section FitMore.

Context {Geometry Callback : Type}.
Variable onTick : Model.GraphModel -> Geometry -> Geometry.
Variable getBoundingBox : Model.GraphModel -> Model.BoundingBox.

Local Notation "'Viz'" := (Visualization.Visualization Geometry Callback).
Local Notation "'fitScale'" :=
  (Visualization.getZoomScaleFactorToFitWholeGraph getBoundingBox).
Local Notation "'zoomSequence'" :=
  (Visualization.zoomSequence onTick getBoundingBox).

(** Zoom requests change neither the graph nor the size of the canvas,
    so they leave the fit factor as it is. *)
Lemma zoomSequence_fit (ops : list ZoomType) (v : Viz) :
  exists v',
    zoomSequence ops v = Some v' /\ fitScale v' = fitScale v.
Proof.
  revert v. induction ops as [|op ops IH]; intros v.
  - exists v. split; reflexivity.
  - cbn [Visualization.zoomSequence].
    assert (Hstep : exists r,
               Visualization.zoomByType onTick getBoundingBox op v = Some r
               /\ fitScale r.1 = fitScale v).
    { destruct op.
      - eexists. split; reflexivity.
      - eexists. split; reflexivity.
      - destruct (fit_total getBoundingBox v) as (k & E & _).
        destruct (zoomByType_fit_result onTick getBoundingBox v k E)
          as (v1 & log & Ez & _ & Hg & Hw & Hh).
        exists (v1, log). split; [exact Ez|].
        unfold Visualization.getZoomScaleFactorToFitWholeGraph.
        cbn [fst]. rewrite Hg, Hw, Hh. reflexivity. }
    destruct Hstep as (r & Er & Hfit). rewrite Er. cbn [mbind option_bind].
    destruct (IH r.1) as (v' & E' & Hfit').
    exists v'. split; [exact E'|]. now rewrite Hfit'.
Qed.

(** X11: a fit request at the end of any series of zoom requests sets
    the scale to the fit factor of the visualization the series started
    from: what came before it, earlier fit requests included, has no
    influence, and fitting twice is fitting once. *)
Theorem X11_fit_forgets_earlier_requests (ops : list ZoomType) (v : Viz) :
  exists k v',
    fitScale v = Some k
    /\ zoomSequence (ops ++ [FIT]) v = Some v'
    /\ Visualization.scale v' = k
    /\ fitScale v' = Some k.
Proof.
  destruct (fit_total getBoundingBox v) as (k & E & _).
  assert (Happ : forall l1 l2 (u : Viz),
             zoomSequence (l1 ++ l2) u
             = (u' ← zoomSequence l1 u; zoomSequence l2 u')).
  { induction l1 as [|op l1 IH1]; intros l2 u; [reflexivity|].
    cbn [app Visualization.zoomSequence].
    destruct (Visualization.zoomByType onTick getBoundingBox op u);
      [|reflexivity].
    cbn [mbind option_bind]. apply IH1. }
  destruct (zoomSequence_fit ops v) as (v1 & E1 & Hfit1).
  rewrite E in Hfit1.
  destruct (zoomByType_fit_result onTick getBoundingBox v1 k Hfit1)
    as (v' & log & Ez & Hs & Hg & Hw & Hh).
  exists k, v'. split; [exact E|].
  rewrite Happ, E1. cbn [mbind option_bind Visualization.zoomSequence].
  rewrite Ez. cbn [mbind option_bind fst].
  split; [reflexivity|]. split; [exact Hs|].
  rewrite <- Hfit1.
  unfold Visualization.getZoomScaleFactorToFitWholeGraph.
  rewrite Hg, Hw, Hh. reflexivity.
Qed.

(** X12: on a canvas of positive size and for a bounding box of
    non-negative width and height, the fit factor is the largest scale
    not above 1 under which the padded box is no wider and no higher
    than the canvas: every such scale is at most the fit factor. *)
Theorem X12_fit_factor_is_largest (v : Viz) (s : Q) :
  (0 < Canvas2D.width (Visualization.canvas v))%N ->
  (0 < Canvas2D.height (Visualization.canvas v))%N ->
  0 <= Model.boxWidth (getBoundingBox (Visualization.graph v)) ->
  0 <= Model.boxHeight (getBoundingBox (Visualization.graph v)) ->
  s <= 1 ->
  s * Visualization.graphWidth getBoundingBox v
  <= Visualization.canvasWidth v ->
  s * Visualization.graphHeight getBoundingBox v
  <= Visualization.canvasHeight v ->
  exists k,
    fitScale v = Some k
    /\ s <= k
    /\ k * Visualization.graphWidth getBoundingBox v
       <= Visualization.canvasWidth v
    /\ k * Visualization.graphHeight getBoundingBox v
       <= Visualization.canvasHeight v.
Proof.
  intros Hw Hh Bw Bh Hs Fw Fh.
  destruct (fit_positive_canvas getBoundingBox v Hw Hh)
    as (wr & hr & E & (Hw0 & Hw1 & Hwfit & Hwmul)
        & (Hh0 & Hh1 & Hhfit & Hhmul)).
  destruct (fit_fits getBoundingBox v _ Hw Hh E) as [Kw Kh].
  exists (Qmin wr hr). split; [exact E|]. split; [|split; assumption].
  assert (Gw : 0 < Visualization.graphWidth getBoundingBox v)
    by (unfold Visualization.graphWidth; lra).
  assert (Gh : 0 < Visualization.graphHeight getBoundingBox v)
    by (unfold Visualization.graphHeight; lra).
  apply Q.min_glb.
  - destruct (Qlt_le_dec (Visualization.canvasWidth v)
                (Visualization.graphWidth getBoundingBox v)) as [Hgt | Hle].
    + specialize (Hwmul Hgt).
      generalize dependent (Visualization.graphWidth getBoundingBox v).
      intros gw. intros. nra.
    + rewrite (Hwfit Hle). exact Hs.
  - destruct (Qlt_le_dec (Visualization.canvasHeight v)
                (Visualization.graphHeight getBoundingBox v)) as [Hgt | Hle].
    + specialize (Hhmul Hgt).
      generalize dependent (Visualization.graphHeight getBoundingBox v).
      intros gh. intros. nra.
    + rewrite (Hhfit Hle). exact Hs.
Qed.

End FitMore.

(** ** More on the callback registry *)

Section RegistryMore.

Context {Geometry Callback Args : Type}.

Local Notation "'Viz'" := (Visualization.Visualization Geometry Callback).

(** X13: for event names that [Object.prototype] does not define, after
    any series of [on] calls on a registry that was empty, [trigger]
    calls exactly the callbacks registered for its event name, in the
    order of registration, a callback registered twice being called
    twice, each with the arguments given to [trigger]; for a name
    without registration it makes no call. *)
Theorem X13_trigger_calls_registered_in_order
  (regs : list (string * Callback)) (v : Viz)
  (event : string) (args : Args) :
  Visualization.callbacks v = ∅ ->
  Forall (fun r => Js.inherited r.1 = false) regs ->
  Js.inherited event = false ->
  exists v',
    Visualization.onAll regs v = Js.Normal v'
    /\ Visualization.trigger event args v'
       = Js.Normal (map (fun callback => (callback, args))
                        (Visualization.registeredFor event regs))
    /\ (Visualization.registeredFor event regs = [] ->
        Visualization.trigger event args v' = Js.Normal [])
    /\ Visualization.scale v' = Visualization.scale v
    /\ Visualization.graph v' = Visualization.graph v
    /\ Visualization.canvas v' = Visualization.canvas v.
Proof.
  intros Hempty Hregs He.
  destruct (onAll_plain_names regs v Hregs) as (v' & E & H).
  exists v'. split; [exact E|].
  assert (Ht : Visualization.trigger event args v'
               = Js.Normal (map (fun callback => (callback, args))
                                (Visualization.registeredFor event regs))).
  { rewrite (trigger_plain_name event args v' He), H.
    unfold Visualization.held. rewrite Hempty, lookup_empty. reflexivity. }
  split; [exact Ht|]. split; [intros Hnone; now rewrite Ht, Hnone|].
  clear Ht H Hempty. revert v v' E.
  induction Hregs as [|[e cb] regs Hi Hregs IH]; intros v v' E.
  - injection E as <-. auto.
  - cbn [Visualization.onAll] in E.
    destruct (on_plain_name e cb v Hi) as (v1 & E1 & _).
    rewrite E1 in E. destruct (IH v1 v' E) as (Hs & Hg & Hc).
    unfold Visualization.on in E1.
    destruct (Js.get (Visualization.callbacks v) e);
      try discriminate E1; injection E1 as <-;
      cbn in Hs, Hg, Hc; auto.
Qed.

(** X14: a successful [on] for one event name changes neither the calls
    that [trigger] makes for any other name, nor whether it throws for
    that name; for its own name it adds the new callback after the ones
    held before. *)
Theorem X14_on_leaves_other_events
  (event other : string) (callback : Callback) (args : Args) (v v' : Viz) :
  Visualization.on event callback v = Js.Normal v' ->
  other <> event ->
  Visualization.trigger other args v' = Visualization.trigger other args v
  /\ Visualization.held v' other = Visualization.held v other
  /\ Visualization.held v' event
     = Visualization.held v event ++ [callback].
Proof.
  intros Hon Hne. split; [exact (on_other_event _ _ _ _ _ _ Hon Hne)|].
  unfold Visualization.on, Js.get in Hon. unfold Visualization.held.
  destruct (Visualization.callbacks v !! event) as [l|] eqn:El.
  - injection Hon as <-. cbn [Visualization.callbacks Visualization.setCallbacks].
    rewrite lookup_insert_ne by congruence. rewrite lookup_insert_eq.
    split; reflexivity.
  - destruct (Js.inherited event); [discriminate Hon|].
    injection Hon as <-.
    cbn [Visualization.callbacks Visualization.setCallbacks].
    rewrite lookup_insert_ne by congruence. rewrite lookup_insert_eq.
    split; reflexivity.
Qed.

End RegistryMore.

(** ** Updates of the canvas [Visualization] *)

Section LifecycleFacts.

Context {Geometry Callback Args Simulation : Type}.
Variable simulationUpdateNodes :
  Model.GraphModel -> Simulation -> Simulation.
Variable simulationUpdateRelationships :
  Model.GraphModel -> Simulation -> Simulation.
Variable simulationRestart : Simulation -> Simulation.
Variable onTick : Model.GraphModel -> Geometry -> Geometry.
Variable onGraphChange :
  Model.GraphModel -> bool -> bool -> Geometry -> Geometry.
Variable noArguments : Args.

Local Notation "'Engine'" := (Lifecycle.Engine Geometry Callback Simulation).
Local Notation "'updateNodes'" :=
  (Lifecycle.updateNodes Geometry Callback Simulation
     simulationUpdateNodes simulationUpdateRelationships onGraphChange).
Local Notation "'updateRelationships'" :=
  (Lifecycle.updateRelationships Geometry Callback Simulation
     simulationUpdateRelationships onTick onGraphChange).
Local Notation "'update'" :=
  (Lifecycle.update Geometry Callback Args Simulation
     simulationUpdateNodes simulationUpdateRelationships simulationRestart
     onTick onGraphChange noArguments).
Local Notation "'init'" :=
  (Lifecycle.init Geometry Callback Simulation
     simulationUpdateNodes simulationUpdateRelationships
     onTick onGraphChange).

(** What [render] keeps besides scale, graph and canvas size. *)
Lemma render_keeps_registry
  (v : Visualization.Visualization Geometry Callback) :
  Visualization.callbacks (Visualization.render onTick v).1
  = Visualization.callbacks v
  /\ Visualization.zoomMinScaleExtent _ _ (Visualization.render onTick v).1
     = Visualization.zoomMinScaleExtent _ _ v.
Proof.
  destruct (Canvas2D.context2d (Visualization.canvas v)) as [ctx|] eqn:E.
  - rewrite (render_context onTick v ctx E). split; reflexivity.
  - rewrite (render_no_context onTick v E). split; reflexivity.
Qed.

Lemma updateNodes_keeps (e : Engine) :
  let v := Lifecycle.visualization e in
  let v' := Lifecycle.visualization (updateNodes e) in
  Visualization.scale v' = Visualization.scale v
  /\ Visualization.graph v' = Visualization.graph v
  /\ Visualization.callbacks v' = Visualization.callbacks v
  /\ Visualization.canvas v' = Visualization.canvas v
  /\ Visualization.zoomMinScaleExtent _ _ v'
     = Visualization.zoomMinScaleExtent _ _ v.
Proof. cbv zeta. repeat split. Qed.

Lemma updateRelationships_keeps (e : Engine) :
  let v := Lifecycle.visualization e in
  let v' := Lifecycle.visualization (updateRelationships e).1 in
  Visualization.scale v' = Visualization.scale v
  /\ Visualization.graph v' = Visualization.graph v
  /\ Visualization.callbacks v' = Visualization.callbacks v
  /\ Visualization.zoomMinScaleExtent _ _ v'
     = Visualization.zoomMinScaleExtent _ _ v
  /\ Canvas2D.width (Visualization.canvas v')
     = Canvas2D.width (Visualization.canvas v)
  /\ Canvas2D.height (Visualization.canvas v')
     = Canvas2D.height (Visualization.canvas v).
Proof.
  cbv zeta. unfold Lifecycle.updateRelationships.
  set (w := Visualization.setGeometry _ (Lifecycle.visualization e)).
  destruct (render_preserves onTick w) as (Hs & Hg & Hw & Hh).
  destruct (render_keeps_registry w) as (Hc & Hm).
  destruct (Visualization.render onTick w) as [v' log].
  cbn [fst Lifecycle.visualization] in *.
  rewrite Hs, Hg, Hc, Hm, Hw, Hh. repeat split.
Qed.

(** X15: [update] never throws: whatever the options, it ends by
    calling the callbacks registered for "updated", in registration
    order and with no arguments, and it keeps the scale, the graph and
    the registry.  Unless relationships are updated it neither paints
    nor logs; it restarts the simulation unless [restartSimulation] is
    given as false; with nothing to update and no restart the
    visualization and the simulation are left as they were. *)
Theorem X15_update_ends_with_updated
  (options : UpdateOptions.t) (e : Engine) :
  exists e' log,
    update options e
    = Js.Normal
        (e', log,
         map (fun callback => (callback, noArguments))
             (Visualization.held (Lifecycle.visualization e) "updated"))
    /\ Visualization.scale (Lifecycle.visualization e')
       = Visualization.scale (Lifecycle.visualization e)
    /\ Visualization.graph (Lifecycle.visualization e')
       = Visualization.graph (Lifecycle.visualization e)
    /\ Visualization.callbacks (Lifecycle.visualization e')
       = Visualization.callbacks (Lifecycle.visualization e)
    /\ (UpdateOptions.updateRelationships options = false ->
        Visualization.canvas (Lifecycle.visualization e')
        = Visualization.canvas (Lifecycle.visualization e)
        /\ log = [])
    /\ (UpdateOptions.restartSimulation options <> Some false ->
        exists s, Lifecycle.forceSimulation e' = simulationRestart s)
    /\ (UpdateOptions.updateNodes options = false ->
        UpdateOptions.updateRelationships options = false ->
        UpdateOptions.restartSimulation options = Some false ->
        e' = e).
Proof.
  unfold Lifecycle.update.
  set (e1 := if UpdateOptions.updateNodes options then updateNodes e else e).
  assert (H1 : Visualization.scale (Lifecycle.visualization e1)
               = Visualization.scale (Lifecycle.visualization e)
               /\ Visualization.graph (Lifecycle.visualization e1)
                  = Visualization.graph (Lifecycle.visualization e)
               /\ Visualization.callbacks (Lifecycle.visualization e1)
                  = Visualization.callbacks (Lifecycle.visualization e)
               /\ Visualization.canvas (Lifecycle.visualization e1)
                  = Visualization.canvas (Lifecycle.visualization e)).
  { subst e1. destruct (UpdateOptions.updateNodes options);
      repeat split. }
  destruct H1 as (Hs1 & Hg1 & Hc1 & Hk1).
  set (r := if UpdateOptions.updateRelationships options
            then updateRelationships e1 else (e1, [])).
  assert (H2 : Visualization.scale (Lifecycle.visualization r.1)
               = Visualization.scale (Lifecycle.visualization e1)
               /\ Visualization.graph (Lifecycle.visualization r.1)
                  = Visualization.graph (Lifecycle.visualization e1)
               /\ Visualization.callbacks (Lifecycle.visualization r.1)
                  = Visualization.callbacks (Lifecycle.visualization e1)).
  { subst r. destruct (UpdateOptions.updateRelationships options).
    - destruct (updateRelationships_keeps e1) as (A & B & C & _). auto.
    - repeat split. }
  destruct H2 as (Hs2 & Hg2 & Hc2).
  destruct r as [e2 log] eqn:Er. cbn [fst] in Hs2, Hg2, Hc2.
  set (e3 := if default true (UpdateOptions.restartSimulation options)
             then {| Lifecycle.visualization := Lifecycle.visualization e2;
                     Lifecycle.forceSimulation :=
                       simulationRestart (Lifecycle.forceSimulation e2) |}
             else e2).
  assert (H3 : Lifecycle.visualization e3 = Lifecycle.visualization e2)
    by (subst e3;
        destruct (default true (UpdateOptions.restartSimulation options));
        reflexivity).
  rewrite trigger_plain_name by reflexivity.
  exists e3, log. split.
  { unfold Visualization.held. rewrite H3, Hc2, Hc1. reflexivity. }
  rewrite H3, Hs2, Hs1, Hg2, Hg1, Hc2, Hc1.
  split; [reflexivity|]. split; [reflexivity|]. split; [reflexivity|].
  split; [|split].
  - intros Hr. subst r. rewrite Hr in Er. injection Er as <- <-.
    split; [exact Hk1 | reflexivity].
  - intros Hr. subst e3.
    destruct (UpdateOptions.restartSimulation options) as [[|]|];
      [eexists; reflexivity | congruence | eexists; reflexivity].
  - intros Hn Hr Hf. subst e3 r e1. rewrite Hn, Hr in Er.
    injection Er as <- <-. rewrite Hf. reflexivity.
Qed.

(** X16: [init] leaves the scale and the smallest allowed scale as the
    constructor set them, since [setInitialZoom] applies nothing and the
    adjustment of the smallest scale is empty; it renders once: with a
    2D context it paints one frame, the clearing followed by the discs
    of the nodes, and logs nothing, and without one it logs "null ctx"
    once. *)
Theorem X16_init_renders_once_and_keeps_scale (e : Engine) :
  let v := Lifecycle.visualization e in
  let e' := (init e).1 in
  let v' := Lifecycle.visualization e' in
  Visualization.scale v' = Visualization.scale v
  /\ Visualization.zoomMinScaleExtent _ _ v'
     = Visualization.zoomMinScaleExtent _ _ v
  /\ Visualization.graph v' = Visualization.graph v
  /\ match Canvas2D.context2d (Visualization.canvas v) with
     | None =>
         (init e).2 = [Js.ConsoleError "null ctx"]
         /\ Visualization.canvas v' = Visualization.canvas v
     | Some ctx =>
         (init e).2 = []
         /\ exists ctx' corner w h,
              Canvas2D.context2d (Visualization.canvas v') = Some ctx'
              /\ Canvas2D.painted ctx'
                 = Canvas2D.painted ctx
                   ++ Canvas2D.Cleared corner w h
                      :: flat_map
                           (fun n =>
                              Canvas2D.discPaints (Canvas2D.transform ctx')
                                (Canvas2D.CaptionText "Node")
                                (Model.x n) (Model.y n) 50)
                           (Model.nodes (Visualization.graph v))
     end.
Proof.
  cbv zeta. unfold Lifecycle.init, Lifecycle.setInitialZoom,
    Visualization.adjustZoomMinScaleExtentToFitGraph.
  destruct (updateRelationships_keeps (updateNodes e))
    as (Hs & Hg & _ & Hm & _).
  cbv zeta in Hs, Hg, Hm.
  unfold Lifecycle.updateRelationships in *.
  set (w := Visualization.setGeometry _
              (Lifecycle.visualization (updateNodes e))) in *.
  assert (Hwc : Visualization.canvas w
                = Visualization.canvas (Lifecycle.visualization e))
    by reflexivity.
  assert (Hwg : Visualization.graph w
                = Visualization.graph (Lifecycle.visualization e))
    by reflexivity.
  destruct (Canvas2D.context2d
              (Visualization.canvas (Lifecycle.visualization e)))
    as [ctx|] eqn:Ectx.
  - rewrite <- Hwc in Ectx.
    destruct (render_paints_frame onTick w ctx Ectx)
      as (ctx' & Hctx' & (corner & cw & ch & Hp & _) & _).
    rewrite (render_context onTick w ctx Ectx) in *.
    cbn [fst snd Lifecycle.visualization] in *.
    split; [exact Hs|]. split; [exact Hm|]. split; [exact Hg|].
    split; [reflexivity|].
    exists ctx', corner, cw, ch. split; [exact Hctx'|].
    rewrite Hwg in Hp. exact Hp.
  - rewrite <- Hwc in Ectx.
    rewrite (render_no_context onTick w Ectx) in *.
    cbn [fst snd Lifecycle.visualization] in *.
    split; [exact Hs|]. split; [exact Hm|]. split; [exact Hg|].
    split; reflexivity.
Qed.

End LifecycleFacts.

(** ** Resizing *)

(** [resize] stores the fullscreen flag and the wheel policy and
    nothing else.  In the d3-zoom version the scale extent and the
    smallest scale are kept, and the policy given decides the filter
    from then on: after [resize(_, false)] every event is accepted
    without a signal, after [resize(_, true)] exactly the wheel events
    without a modifier key are rejected.  In the canvas version the
    scale, the canvas, the graph and the registry are kept, so the scale
    chosen by the user is not reset and nothing is painted. *)
Lemma resize_sets_policy_and_keeps_zoom
  {Geometry Callback : Type}
  (fullscreen requiresModKey : bool)
  (d : D3Visualization.Visualization Geometry)
  (v : Visualization.Visualization Geometry Callback)
  (e : ZoomBehavior.SourceEvent) :
  let d' := D3Visualization.resize fullscreen requiresModKey d in
  let v' := Lifecycle.resize fullscreen requiresModKey v in
  ((ZoomBehavior.filter (D3Visualization.wheelZoomRequiresModKey d') e).1
   = false
   <-> requiresModKey = true /\ ZoomBehavior.plainWheel e)
  /\ D3Visualization.scaleExtent d' = D3Visualization.scaleExtent d
  /\ D3Visualization.zoomMinScaleExtent d'
     = D3Visualization.zoomMinScaleExtent d
  /\ D3Visualization.canvas d' = D3Visualization.canvas d
  /\ Visualization.scale v' = Visualization.scale v
  /\ Visualization.canvas v' = Visualization.canvas v
  /\ Visualization.graph v' = Visualization.graph v
  /\ Visualization.callbacks v' = Visualization.callbacks v
  /\ Lifecycle.resize fullscreen requiresModKey v' = v'.
Proof.
  cbv zeta. split; [|repeat split].
  cbn [D3Visualization.resize D3Visualization.wheelZoomRequiresModKey].
  unfold ZoomBehavior.filter, ZoomBehavior.plainWheel.
  destruct (String.eqb_spec (ZoomBehavior.type e) "wheel") as [Ht | Ht].
  - destruct requiresModKey, (ZoomBehavior.metaKey e),
      (ZoomBehavior.ctrlKey e), (ZoomBehavior.shiftKey e); simpl;
      (split; [intros H; try discriminate H; auto
              | intros (? & ? & ? & ? & ?); try discriminate; reflexivity]).
  - simpl. split; [discriminate|]. intros (_ & Hw & _). contradiction.
Qed.

(** ** The hypotheses of the further properties hold at concrete inputs *)

Lemma X4_holds_for_three_adjustments :
  let v := Usage.d3 (1 # 10) 400 300 in
  D3Visualization.scaleExtent v
  = (D3Visualization.zoomMinScaleExtent v, 2)
  /\ exists v',
       D3Visualization.adjustAll (5 # 100) 2
         [ (3 # 4, (400%N, 300%N)); (1, (0%N, 0%N));
           (3 # 4, (800%N, 600%N)) ] v = Some v'
       /\ D3Visualization.zoomMinScaleExtent v'
          <= D3Visualization.zoomMinScaleExtent v.
Proof.
  cbv zeta. split; [reflexivity|].
  destruct (X4_min_scale_extent_only_shrinks (5 # 100) 2
              [ (3 # 4, (400%N, 300%N)); (1, (0%N, 0%N));
                (3 # 4, (800%N, 600%N)) ]
              (Usage.d3 (1 # 10) 400 300) eq_refl)
    as (v' & E & Hle & _).
  exists v'. split; [exact E | exact Hle].
Defined.

Lemma X6_holds_on_fresh_context :
  let v := Scenario.visualization (1 # 10)
             (Scenario.canvasElement 400 300) Scenario.twoNodes in
  let d := Usage.d3 (1 # 10) 400 300 in
  Visualization.scale v == 1
  /\ D3Visualization.canvas d = Visualization.canvas v
  /\ D3Visualization.graph d = Visualization.graph v
  /\ Canvas2D.context2d (Visualization.canvas v)
     = Some Scenario.freshContext
  /\ Canvas2D.transform Scenario.freshContext = Canvas2D.identity
  /\ exists ctx1 ctx2 frame1 frame2,
       Canvas2D.painted ctx1
       = Canvas2D.painted Scenario.freshContext ++ frame1
       /\ Canvas2D.painted ctx2
          = Canvas2D.painted Scenario.freshContext ++ frame2
       /\ Forall2 Compare.samePaint frame1 frame2.
Proof.
  cbv zeta. split; [reflexivity|]. split; [reflexivity|].
  split; [reflexivity|]. split; [reflexivity|]. split; [reflexivity|].
  destruct (X6_renders_agree_at_scale_one Model.deriveGeometry
              (Scenario.visualization (1 # 10)
                 (Scenario.canvasElement 400 300) Scenario.twoNodes)
              (Usage.d3 (1 # 10) 400 300) Scenario.freshContext
              (Qeq_refl 1) eq_refl eq_refl eq_refl eq_refl)
    as (c1 & c2 & f1 & f2 & _ & _ & H1 & H2 & H).
  exists c1, c2, f1, f2. auto.
Defined.

Lemma X8_holds_for_clicks :
  let g := Scenario.component [] None in
  GraphHandlers.occurrences FIT [IN; IN; OUT] = 0%Z
  /\ Graph.zoomLevel
       (Graph.state
          (GraphHandlers.clicksAndUpdates ([OUT] ++ FIT :: [IN; IN; OUT]) g))
     == 13 # 10.
Proof.
  cbv zeta. split; [reflexivity|].
  destruct (X8_zoom_level_counts_clicks [OUT] [IN; IN; OUT]
              (Scenario.component [] None) eq_refl) as [_ H].
  rewrite H. reflexivity.
Defined.


Lemma X10_holds_for_three_clicks :
  let canvas := Scenario.canvasElement 100 100 in
  let g := Scenario.component [Scenario.person] (Some canvas) in
  let g' := GraphHandlers.clicksAndUpdates ([IN; FIT] ++ [OUT]) g in
  Graph.canvasElement g = Some canvas
  /\ Canvas2D.context2d canvas = Some Scenario.freshContext
  /\ exists canvas' ctx',
       Graph.canvasElement g' = Some canvas'
       /\ Canvas2D.context2d canvas' = Some ctx'
       /\ forall p,
            fst (Canvas2D.apply (Canvas2D.transform ctx') p)
            == Graph.zoomLevel (Graph.state g') * fst p.
Proof.
  cbv zeta. split; [reflexivity|]. split; [reflexivity|].
  destruct (X10_redraws_do_not_compound_scale [IN; FIT] OUT
              (Scenario.component [Scenario.person]
                 (Some (Scenario.canvasElement 100 100)))
              (Scenario.canvasElement 100 100) Scenario.freshContext
              eq_refl eq_refl)
    as (canvas' & ctx' & Ec & Ex & _ & _ & Ht).
  exists canvas', ctx'. split; [exact Ec|]. split; [exact Ex|].
  intros p. apply Ht.
Defined.

Lemma X12_holds_for_half_scale :
  let v := Scenario.visualization (1 # 10)
             (Scenario.canvasElement 400 300) Scenario.twoNodes in
  (0 < Canvas2D.width (Visualization.canvas v))%N
  /\ (0 < Canvas2D.height (Visualization.canvas v))%N
  /\ 0 <= Model.boxWidth (Model.boundingBox (Visualization.graph v))
  /\ 0 <= Model.boxHeight (Model.boundingBox (Visualization.graph v))
  /\ (1 # 2) <= 1
  /\ (1 # 2) * Visualization.graphWidth Model.boundingBox v
     <= Visualization.canvasWidth v
  /\ (1 # 2) * Visualization.graphHeight Model.boundingBox v
     <= Visualization.canvasHeight v
  /\ exists k,
       Visualization.getZoomScaleFactorToFitWholeGraph Model.boundingBox v
       = Some k
       /\ (1 # 2) <= k.
Proof.
  cbv zeta.
  assert (H1 : (0 < 400)%N) by reflexivity.
  assert (H2 : (0 < 300)%N) by reflexivity.
  assert (H3 : 0 <= Model.boxWidth (Model.boundingBox Scenario.twoNodes))
    by (vm_compute; discriminate).
  assert (H4 : 0 <= Model.boxHeight (Model.boundingBox Scenario.twoNodes))
    by (vm_compute; discriminate).
  assert (H5 : (1 # 2) <= 1) by discriminate.
  assert (H6 : (1 # 2)
               * Visualization.graphWidth Model.boundingBox
                   (Scenario.visualization (1 # 10)
                      (Scenario.canvasElement 400 300) Scenario.twoNodes)
               <= Visualization.canvasWidth
                    (Scenario.visualization (1 # 10)
                       (Scenario.canvasElement 400 300) Scenario.twoNodes))
    by (vm_compute; discriminate).
  assert (H7 : (1 # 2)
               * Visualization.graphHeight Model.boundingBox
                   (Scenario.visualization (1 # 10)
                      (Scenario.canvasElement 400 300) Scenario.twoNodes)
               <= Visualization.canvasHeight
                    (Scenario.visualization (1 # 10)
                       (Scenario.canvasElement 400 300) Scenario.twoNodes))
    by (vm_compute; discriminate).
  repeat (split; [assumption|]).
  destruct (X12_fit_factor_is_largest Model.boundingBox
              (Scenario.visualization (1 # 10)
                 (Scenario.canvasElement 400 300) Scenario.twoNodes)
              (1 # 2) H1 H2 H3 H4 H5 H6 H7) as (k & E & Hk & _).
  exists k. split; [exact E | exact Hk].
Defined.

Lemma X13_holds_for_three_registrations :
  let v := Scenario.visualization (1 # 10)
             (Scenario.canvasElement 100 100) Scenario.emptyGraph in
  Visualization.callbacks v = ∅
  /\ Forall (fun r => Js.inherited r.1 = false) Usage.registrations
  /\ Js.inherited "updated" = false
  /\ exists v',
       Visualization.onAll Usage.registrations v = Js.Normal v'
       /\ Visualization.trigger "updated" 7%nat v'
          = Js.Normal [ (1%nat, 7%nat); (3%nat, 7%nat) ].
Proof.
  cbv zeta.
  assert (Hregs : Forall (fun r : string * nat => Js.inherited r.1 = false)
                    Usage.registrations)
    by (repeat constructor).
  split; [reflexivity|]. split; [exact Hregs|]. split; [reflexivity|].
  destruct (X13_trigger_calls_registered_in_order Usage.registrations
              (Scenario.visualization (1 # 10)
                 (Scenario.canvasElement 100 100) Scenario.emptyGraph)
              "updated" 7%nat eq_refl Hregs eq_refl)
    as (v' & E & Ht & _).
  exists v'. split; [exact E | exact Ht].
Defined.

Lemma X14_holds_for_one_registration :
  let v := Scenario.visualization (1 # 10)
             (Scenario.canvasElement 100 100) Scenario.emptyGraph in
  let v' := Visualization.setCallbacks {[ "updated"%string := [1%nat] ]} v in
  Visualization.on "updated" 1%nat v = Js.Normal v'
  /\ "nodeClicked"%string <> "updated"%string
  /\ Visualization.trigger "nodeClicked" 7%nat v'
     = Visualization.trigger "nodeClicked" 7%nat v
  /\ Visualization.held v' "updated" = [1%nat].
Proof.
  cbv zeta.
  assert (Hon : Visualization.on "updated" 1%nat
                  (Scenario.visualization (1 # 10)
                     (Scenario.canvasElement 100 100) Scenario.emptyGraph)
                = Js.Normal
                    (Visualization.setCallbacks
                       {[ "updated"%string := [1%nat] ]}
                       (Scenario.visualization (1 # 10)
                          (Scenario.canvasElement 100 100)
                          Scenario.emptyGraph)))
    by reflexivity.
  assert (Hne : "nodeClicked"%string <> "updated"%string) by discriminate.
  split; [exact Hon|]. split; [exact Hne|].
  destruct (X14_on_leaves_other_events "updated" "nodeClicked" 1%nat 7%nat
              _ _ Hon Hne) as (Ht & _ & Hh).
  split; [exact Ht | exact Hh].
Defined.
